(** * Translation resolution and contribution ingestion (src/app.py)

    A shallow embedding of the two request handlers of [src/app.py],
    [translate] and [contribute], together with the collaborators they
    talk to:

    - the static dictionary [TEMPORARY_DICTIONARIES] (module
      [combined_dictionaries], a table that is a parameter here);
    - the fuzzy matcher [process.extractOne] (a parameter);
    - the Firestore document store, as an in-memory state with the three
      places the handlers touch: the [contributions] collection, the
      [language_pairs] collection and the [translations] subcollections.

    Handlers are programs in a small free monad over the collaborator
    calls: the same program is run sequentially ([run]) and stepped one
    store call at a time under a scheduler ([interleave]).

    Conventions.  In [translate] and [contribute] text is ASCII:
    [Py.lower] maps A-Z to a-z and [Py.strip] removes the ASCII white
    space of Python's [str.strip].  [Text.translate] and
    [Text.contribute] are the same two handlers with [str.lower] and
    [str.strip] as parameters, for text of any alphabet (a string is
    then the UTF-8 form of the text); what is said about normalisation
    itself is said of them.  Numbers of the store are unbounded
    integers.  A store call always answers; the exceptions that are
    modelled are the ones the handlers' own code can raise (a
    non-string request field, unpacking a missing match, a missing key,
    updating a missing document), so what is said of a response other
    than 201 is said only where it also holds when the store fails. *)

From Stdlib Require Import ZArith String Ascii List Lia Bool.
From stdpp Require Import base option gmap strings list fin_maps sorting.

Local Open Scope string_scope.
Local Open Scope Z_scope.

(** ** Python strings *)

Module Py.

(** [str.lower] on ASCII text. *)
Definition lower_char (c : ascii) : ascii :=
  let n := N_of_ascii c in
  if ((65 <=? n) && (n <=? 90))%N then ascii_of_N (n + 32) else c.

Fixpoint lower (s : string) : string :=
  match s with
  | EmptyString => EmptyString
  | String c s' => String (lower_char c) (lower s')
  end.

(** The characters [str.strip] removes: tab, line feed, vertical tab,
    form feed, carriage return, the four separators 28-31 and space. *)
Definition is_space (c : ascii) : bool :=
  let n := N_of_ascii c in
  (((9 <=? n) && (n <=? 13)) || ((28 <=? n) && (n <=? 32)))%N.

Fixpoint lstrip (s : string) : string :=
  match s with
  | EmptyString => EmptyString
  | String c s' => if is_space c then lstrip s' else s
  end.

(** [rstrip] keeps a character when it is not white space or when
    something is kept after it. *)
Fixpoint rstrip (s : string) : string :=
  match s with
  | EmptyString => EmptyString
  | String c s' =>
      match rstrip s' with
      | EmptyString => if is_space c then EmptyString else String c EmptyString
      | r => String c r
      end
  end.

Definition strip (s : string) : string := rstrip (lstrip s).

(** Truth value of a string: [if not s]. *)
Definition truthy_str (s : string) : bool :=
  match s with EmptyString => false | _ => true end.

(** No white space in front. *)
Definition trimmed_left (s : string) : Prop :=
  match s with
  | EmptyString => True
  | String c _ => is_space c = false
  end.

End Py.

(** ** Values, dicts and documents *)

(** JSON and store values.  [VNone] is Python's [None]; [VList] holds
    the only lists the handlers build, lists of strings. *)
Inductive value : Type :=
| VNone
| VBool (b : bool)
| VInt (n : Z)
| VStr (s : string)
| VList (l : list string).

(** A Python dict with string keys whose order is not observed: a JSON
    body or a store document. *)
Abbreviation dict := (gmap string value).

(** Truth value of a Python object, as in [if existing_translation]. *)
Definition truthy (v : value) : bool :=
  match v with
  | VNone => false
  | VBool b => b
  | VInt n => negb (n =? 0)
  | VStr s => Py.truthy_str s
  | VList l => match l with [] => false | _ => true end
  end.

(** A dict literal. *)
Definition dict_of (l : list (string * value)) : dict := list_to_map l.

(** A Python dict whose key order is observed ([keys()] is listed or
    iterated): the entries in insertion order.  Such a dict has no
    repeated key; [od_get] reads the first entry of a key. *)
Definition odict (V : Type) : Type := list (string * V).

Fixpoint od_get {V : Type} (d : odict V) (k : string) : option V :=
  match d with
  | [] => None
  | (k', v) :: d' => if String.eqb k k' then Some v else od_get d' k
  end.

Definition od_keys {V : Type} (d : odict V) : list string := map fst d.

(** [if d]: a dict is true when it is not empty. *)
Definition od_nonempty {V : Type} (d : odict V) : bool :=
  match d with [] => false | _ => true end.

(** A response of a handler: [jsonify(body), status]. *)
Definition response : Type := dict * Z.

(** ** Exceptions *)

Inductive exn : Type :=
| AttributeError (type_name attr : string)
| TypeError (message : string)
| KeyError (key_repr : string)
| NotFound (path : string).

Module PyExn.

(** [repr] of a key made of plain characters. *)
Definition repr (s : string) : string := "'" +:+ s +:+ "'".

Definition type_name (v : value) : string :=
  match v with
  | VNone => "NoneType"
  | VBool _ => "bool"
  | VInt _ => "int"
  | VStr _ => "str"
  | VList _ => "list"
  end.

(** [str(e)]. *)
Definition str (e : exn) : string :=
  match e with
  | AttributeError t a => "'" +:+ t +:+ "' object has no attribute '" +:+ a +:+ "'"
  | TypeError m => m
  | KeyError k => k
  | NotFound p => "No document to update: " +:+ p
  end.

End PyExn.

(** ** The document store *)

(** The three places of the Firestore data base the handlers use:
    [contributions/<id>], [language_pairs/<key>] and
    [language_pairs/<key>/translations/<id>]. *)
Record Store : Type := mkStore {
  contributions : gmap string dict;
  language_pairs : gmap string dict;
  translations : gmap (string * string) dict
}.

Definition empty_store : Store := mkStore ∅ ∅ ∅.

(** A field of an [update]: a plain value or [firestore.Increment]. *)
Inductive transform : Type :=
| SetTo (v : value)
| Increment (n : Z).

(** A numeric field read as a counter: a field that is missing or not a
    number counts as 0, which is also what [Increment] starts from. *)
Definition counter (d : dict) (f : string) : Z :=
  match d !! f with
  | Some (VInt n) => n
  | _ => 0
  end.

Definition apply_transform (d : dict) (ft : string * transform) : dict :=
  match ft.2 with
  | SetTo v => <[ft.1 := v]> d
  | Increment n => <[ft.1 := VInt (counter d ft.1 + n)]> d
  end.

Definition apply_update (d : dict) (fts : list (string * transform)) : dict :=
  fold_left apply_transform fts d.

(** [where(f, '==', v)] for each filter. *)
Definition matches (filters : list (string * string)) (d : dict) : bool :=
  forallb (fun fv : string * string =>
             match d !! fv.1 with
             | Some (VStr s) => String.eqb s fv.2
             | _ => false
             end) filters.

(** Documents of a collection in the order of a query, by document id. *)
Definition id_le (a b : string * dict) : Prop := String.leb a.1 b.1 = true.

#[global] Instance id_le_dec a b : Decision (id_le a b).
Proof. unfold id_le. apply _. Defined.

Definition documents (c : gmap string dict) : list dict :=
  snd <$> merge_sort id_le (map_to_list c).

(** [collection.where(...)...limit(n).get()]. *)
Definition query (c : gmap string dict) (filters : list (string * string)) (limit : nat)
  : list dict :=
  take limit (List.filter (matches filters) (documents c)).

(** ** Collaborator calls and handler programs *)

(** The calls a handler makes to its collaborators, indexed by the type
    of the answer. *)
Inductive call : Type -> Type :=
| ExtractOne (query : string) (choices : list string) : call (option (string * Z))
| InitializeFirebase : call unit
| WhereContributions (filters : list (string * string)) (limit : nat) : call (list dict)
| SetContribution (id : string) (d : dict) : call unit
| GetLanguagePair (key : string) : call (option dict)
| SetLanguagePair (key : string) (d : dict) : call unit
| UpdateLanguagePair (key : string) (fts : list (string * transform)) : call (option exn)
| SetTranslation (key id : string) (d : dict) : call unit.

(** A handler: it returns, raises, or makes a call and goes on with the
    answer. *)
Inductive prog (A : Type) : Type :=
| Ret (a : A)
| Raise (e : exn)
| Call {X : Type} (c : call X) (k : X -> prog A).

Arguments Ret {A} a.
Arguments Raise {A} e.
Arguments Call {A X} c k.

Fixpoint bind {A B : Type} (p : prog A) (f : A -> prog B) : prog B :=
  match p with
  | Ret a => f a
  | Raise e => Raise e
  | Call c k => Call c (fun x => bind (k x) f)
  end.

#[global] Instance prog_ret : MRet prog := @Ret.
#[global] Instance prog_bind : MBind prog := fun A B f p => bind p f.

(** [try: p except Exception as e: h e]. *)
Fixpoint try_except {A : Type} (p : prog A) (h : exn -> prog A) : prog A :=
  match p with
  | Ret a => Ret a
  | Raise e => h e
  | Call c k => Call c (fun x => try_except (k x) h)
  end.

Definition perform {X : Type} (c : call X) : prog X := Call c Ret.

(** What a call answers and does to the store.  [set] writes the whole
    document; [update] fails on a missing document. *)
Definition exec (extractOne : string -> list string -> option (string * Z))
    {X : Type} (c : call X) (s : Store) : X * Store :=
  match c in call X return X * Store with
  | ExtractOne q choices => (extractOne q choices, s)
  | InitializeFirebase => (tt, s)
  | WhereContributions filters limit => (query (contributions s) filters limit, s)
  | SetContribution id d =>
      (tt, mkStore (<[id := d]> (contributions s)) (language_pairs s) (translations s))
  | GetLanguagePair key => (language_pairs s !! key, s)
  | SetLanguagePair key d =>
      (tt, mkStore (contributions s) (<[key := d]> (language_pairs s)) (translations s))
  | UpdateLanguagePair key fts =>
      match language_pairs s !! key with
      | Some d =>
          (None, mkStore (contributions s)
                         (<[key := apply_update d fts]> (language_pairs s))
                         (translations s))
      | None => (Some (NotFound ("language_pairs/" +:+ key)), s)
      end
  | SetTranslation key id d =>
      (tt, mkStore (contributions s) (language_pairs s) (<[(key, id) := d]> (translations s)))
  end.

(** Sequential execution of a handler. *)
Fixpoint run (extractOne : string -> list string -> option (string * Z))
    {A : Type} (p : prog A) (s : Store) : (exn + A) * Store :=
  match p with
  | Ret a => (inr a, s)
  | Raise e => (inl e, s)
  | Call c k => let xs := exec extractOne c s in run extractOne (k xs.1) xs.2
  end.

(** ** The handlers *)

Section Handlers.

(** The table of module [combined_dictionaries]: bucket key to bucket,
    a bucket from source phrase to target phrase. *)
Variable TEMPORARY_DICTIONARIES : odict (odict string).

(** [data.get(k, '')] followed by a string method: a missing field reads
    as the empty string, a field that is not a string has no such
    method. *)
Definition get_str (data : dict) (k attr : string) : prog string :=
  match data !! k with
  | None => Ret ""
  | Some (VStr s) => Ret s
  | Some v => Raise (AttributeError (PyExn.type_name v) attr)
  end.

(** [except Exception as e] of both handlers. *)
Definition internal_error (e : exn) : prog response :=
  Ret (dict_of [("error", VStr "Internal server error");
                ("message", VStr (PyExn.str e))], 500).

(** [d[k]]. *)
Definition getitem (d : dict) (k : string) : prog value :=
  match d !! k with
  | Some v => Ret v
  | None => Raise (KeyError (PyExn.repr k))
  end.

Definition od_getitem (d : odict string) (k : string) : prog string :=
  match od_get d k with
  | Some v => Ret v
  | None => Raise (KeyError (PyExn.repr k))
  end.

(** Lines 105-132 of app.py: pending contributions of the store, then
    no match. *)
Definition pending_tier (source_lang target_lang text : string) : prog response :=
  _ ← perform InitializeFirebase;
  pending_translation ←
    perform (WhereContributions [("source_text", text);
                                 ("source_language", source_lang);
                                 ("target_language", target_lang);
                                 ("status", "pending")] 1);
  match pending_translation with
  | pending_data :: _ =>
      target_text ← getitem pending_data "target_text";
      Ret (dict_of [("originalText", VStr text);
                    ("translation", target_text);
                    ("matchType", VStr "pending");
                    ("note", VStr "This is a pending contribution awaiting review");
                    ("sourceLang", VStr source_lang);
                    ("targetLang", VStr target_lang)], 200)
  | [] =>
      Ret (dict_of [("originalText", VStr text);
                    ("translation", VStr ("No translation found for '" +:+ text +:+ "'"));
                    ("matchType", VStr "none");
                    ("sourceLang", VStr source_lang);
                    ("targetLang", VStr target_lang);
                    ("suggestion", VStr "Consider contributing a translation")], 404)
  end.

Definition exact_response (source_lang target_lang text translation : string) : response :=
  (dict_of [("originalText", VStr text);
            ("translation", VStr translation);
            ("matchType", VStr "exact");
            ("sourceLang", VStr source_lang);
            ("targetLang", VStr target_lang)], 200).

Definition fuzzy_response (source_lang target_lang text translation : string)
    (score : Z) (best_match : string) : response :=
  (dict_of [("originalText", VStr text);
            ("translation", VStr translation);
            ("matchType", VStr "fuzzy");
            ("fuzzyMatchScore", VInt score);
            ("matchedWord", VStr best_match);
            ("sourceLang", VStr source_lang);
            ("targetLang", VStr target_lang)], 200).

Definition not_supported_response (source_lang target_lang : string) : response :=
  (dict_of [("translation",
             VStr ("Translation between " +:+ source_lang +:+ " and " +:+ target_lang
                   +:+ " is not currently supported"));
            ("matchType", VStr "none");
            ("supportedPairs", VList (od_keys TEMPORARY_DICTIONARIES))], 404).

(** Lines 89-103: the fuzzy tier, entered with a bucket that is not
    empty; below the threshold the handler goes on to line 105. *)
Definition fuzzy_tier (dictionary : odict string) (source_lang target_lang text : string)
  : prog response :=
  r ← perform (ExtractOne text (od_keys dictionary));
  match r with
  | None => Raise (TypeError "cannot unpack non-iterable NoneType object")
  | Some (best_match, score) =>
      if 70 <=? score then
        translation ← od_getitem dictionary best_match;
        Ret (fuzzy_response source_lang target_lang text translation score best_match)
      else pending_tier source_lang target_lang text
  end.

(** Lines 60-132, with the three normalised inputs. *)
Definition translate_body (source_lang target_lang text : string) : prog response :=
  if negb (Py.truthy_str text) then
    Ret (dict_of [("error", VStr "No text provided for translation")], 400)
  else if negb (Py.truthy_str source_lang) || negb (Py.truthy_str target_lang) then
    Ret (dict_of [("error", VStr "Source or target language not specified")], 400)
  else
    let dict_key := source_lang +:+ "-" +:+ target_lang in
    match od_get TEMPORARY_DICTIONARIES dict_key with
    | None => Ret (not_supported_response source_lang target_lang)
    | Some dictionary =>
        match od_get dictionary text with
        | Some translation =>
            Ret (exact_response source_lang target_lang text translation)
        | None =>
            if od_nonempty dictionary
            then fuzzy_tier dictionary source_lang target_lang text
            else pending_tier source_lang target_lang text
        end
    end.

(** [translate()], on the JSON object of the request. *)
Definition translate (data : dict) : prog response :=
  try_except
    (source_lang ← get_str data "sourceLang" "lower";
     target_lang ← get_str data "targetLang" "lower";
     text ← get_str data "text" "lower";
     translate_body (Py.strip (Py.lower source_lang))
                    (Py.strip (Py.lower target_lang))
                    (Py.strip (Py.lower text)))
    internal_error.

(** The record of lines 200-213. *)
Definition contribution_record (contribution_id source_text target_text
    source_language target_language source_example target_example timestamp : string)
  : dict :=
  dict_of [("id", VStr contribution_id);
           ("source_text", VStr source_text);
           ("target_text", VStr target_text);
           ("source_language", VStr source_language);
           ("target_language", VStr target_language);
           ("source_example", VStr source_example);
           ("target_example", VStr target_example);
           ("status", VStr "pending");
           ("created_at", VStr timestamp);
           ("updated_at", VStr timestamp);
           ("votes", VInt 0);
           ("reviewed", VBool false)].

(** The aggregate written when the pair has no document (lines 225-232). *)
Definition new_language_pair (source_language target_language timestamp : string) : dict :=
  dict_of [("source_language", VStr source_language);
           ("target_language", VStr target_language);
           ("total_contributions", VInt 0);
           ("pending_contributions", VInt 0);
           ("validated_contributions", VInt 0);
           ("last_updated", VStr timestamp)].

(** The update of lines 235-239. *)
Definition counter_update (timestamp : string) : list (string * transform) :=
  [("total_contributions", Increment 1);
   ("pending_contributions", Increment 1);
   ("last_updated", SetTo (VStr timestamp))].

Definition duplicate_response (existing_translation : value) : response :=
  (dict_of [("error", VStr "This translation already exists");
            ("existing_translation", existing_translation);
            ("status", VStr "duplicate")], 409).

Definition success_response (contribution_id dict_key : string) : response :=
  (dict_of [("success", VBool true);
            ("message", VStr "Contribution received and pending review");
            ("contribution_id", VStr contribution_id);
            ("status", VStr "pending");
            ("language_pair", VStr dict_key)], 201).

(** Lines 171-174: the translation the static table has, or [None]. *)
Definition dictionary_translation (dict_key source_text : string) : value :=
  match od_get TEMPORARY_DICTIONARIES dict_key with
  | Some dictionary =>
      match od_get dictionary source_text with
      | Some translation => VStr translation
      | None => VNone
      end
  | None => VNone
  end.

(** Lines 176-186: the validated contribution of the store is consulted
    when [existing_translation] is not true. *)
Definition find_existing (dict_key source_text source_language target_language : string)
  : prog value :=
  let existing_translation := dictionary_translation dict_key source_text in
  if negb (truthy existing_translation) then
    approved_translation ←
      perform (WhereContributions [("source_text", source_text);
                                   ("source_language", source_language);
                                   ("target_language", target_language);
                                   ("status", "validated")] 1);
    match approved_translation with
    | approved :: _ => Ret (default VNone (approved !! "target_text"))
    | [] => Ret existing_translation
    end
  else Ret existing_translation.

(** Lines 215-254: the three writes and the counters. *)
Definition save_contribution (contribution_id dict_key source_language target_language
    timestamp : string) (contribution : dict) : prog response :=
  _ ← perform (SetContribution contribution_id contribution);
  snapshot ← perform (GetLanguagePair dict_key);
  _ ← (match snapshot with
       | None =>
           perform (SetLanguagePair dict_key
                      (new_language_pair source_language target_language timestamp))
       | Some _ => Ret tt
       end);
  failure ← perform (UpdateLanguagePair dict_key (counter_update timestamp));
  _ ← (match failure with Some e => Raise e | None => Ret tt end);
  _ ← perform (SetTranslation dict_key contribution_id contribution);
  Ret (success_response contribution_id dict_key).

(** Lines 158-254, with the normalised inputs. *)
Definition contribute_body (source_text target_text source_language target_language
    source_example target_example contribution_id timestamp : string) : prog response :=
  if negb (Py.truthy_str source_text) || negb (Py.truthy_str target_text) then
    Ret (dict_of [("error", VStr "Source text and target text are required")], 400)
  else if negb (Py.truthy_str source_language) || negb (Py.truthy_str target_language) then
    Ret (dict_of [("error", VStr "Source language and target language are required")], 400)
  else
    let dict_key := source_language +:+ "-" +:+ target_language in
    existing_translation ←
      find_existing dict_key source_text source_language target_language;
    if truthy existing_translation then Ret (duplicate_response existing_translation)
    else
      save_contribution contribution_id dict_key source_language target_language timestamp
        (contribution_record contribution_id source_text target_text source_language
           target_language source_example target_example timestamp).

(** [contribute()], on the JSON object of the request; [contribution_id]
    and [timestamp] are what [uuid.uuid4()] and [datetime.now()] give
    this request. *)
Definition contribute (data : dict) (contribution_id timestamp : string) : prog response :=
  try_except
    (_ ← perform InitializeFirebase;
     source_text ← get_str data "source_text" "strip";
     target_text ← get_str data "target_text" "strip";
     source_language ← get_str data "source_language" "lower";
     target_language ← get_str data "target_language" "lower";
     source_example ← get_str data "source_example" "strip";
     target_example ← get_str data "target_example" "strip";
     contribute_body (Py.lower (Py.strip source_text))
                     (Py.strip target_text)
                     (Py.strip (Py.lower source_language))
                     (Py.strip (Py.lower target_language))
                     (Py.strip source_example)
                     (Py.strip target_example)
                     contribution_id timestamp)
    internal_error.

End Handlers.

(** ** Concurrent requests *)

(** One collaborator call of a handler, atomic on the shared store. *)
Definition step_thread (extractOne : string -> list string -> option (string * Z))
    {A : Type} (p : prog A) (s : Store) : prog A * Store :=
  match p with
  | Call c k => let xs := exec extractOne c s in (k xs.1, xs.2)
  | _ => (p, s)
  end.

(** Requests in flight on one store: the scheduler names the request
    that makes its next call. *)
Fixpoint interleave (extractOne : string -> list string -> option (string * Z))
    {A : Type} (schedule : list nat) (pool : list (prog A)) (s : Store)
  : list (prog A) * Store :=
  match schedule with
  | [] => (pool, s)
  | i :: schedule' =>
      match pool !! i with
      | Some p =>
          let ps := step_thread extractOne p s in
          interleave extractOne schedule' (<[i := ps.1]> pool) ps.2
      | None => interleave extractOne schedule' pool s
      end
  end.

(** ** Requests, operations and the properties of the store *)

(** A request field read as a string: a missing field is the empty
    string, a field that is not a string has no reading. *)
Definition str_field (data : dict) (k : string) : option string :=
  match data !! k with
  | None => Some ""
  | Some (VStr s) => Some s
  | Some _ => None
  end.

(** The normal form of an input of [translate]: [.lower().strip()]. *)
Definition normalize (s : string) : string := Py.strip (Py.lower s).

(** The bucket key of a language pair. *)
Definition pair_key (source_lang target_lang : string) : string :=
  source_lang +:+ "-" +:+ target_lang.

(** The two validation tests of [translate] pass. *)
Definition valid_resolution (source_lang target_lang text : string) : Prop :=
  text <> "" /\ source_lang <> "" /\ target_lang <> "".

(** The two validation tests of [contribute] pass. *)
Definition valid_contribution (source_text target_text source_language target_language : string)
  : Prop :=
  source_text <> "" /\ target_text <> "" /\ source_language <> "" /\ target_language <> "".

(** The filters of the duplicate check in the store. *)
Definition validated_filters (source_text source_language target_language : string)
  : list (string * string) :=
  [("source_text", source_text); ("source_language", source_language);
   ("target_language", target_language); ("status", "validated")].

(** The store after the writes of an accepted contribution. *)
Definition saved (s : Store) (dict_key contribution_id source_language target_language
    timestamp : string) (contribution : dict) : Store :=
  mkStore
    (<[contribution_id := contribution]> (contributions s))
    (<[dict_key :=
         apply_update
           (default (new_language_pair source_language target_language timestamp)
                    (language_pairs s !! dict_key))
           (counter_update timestamp)]> (language_pairs s))
    (<[(dict_key, contribution_id) := contribution]> (translations s)).

(** The operations of the core. *)
Inductive operation : Type :=
| Resolve (data : dict)
| Contribute (data : dict) (contribution_id timestamp : string).



(** A counter of the aggregate of a pair; an aggregate that does not
    exist yet counts as 0. *)
Definition aggregate_counter (s : Store) (dict_key field : string) : Z :=
  match language_pairs s !! dict_key with
  | Some d => counter d field
  | None => 0
  end.

(** [totalContributions >= pendingContributions] on every aggregate. *)
Definition aggregate_inv (s : Store) : Prop :=
  forall dict_key : string,
    aggregate_counter s dict_key "pending_contributions"
    <= aggregate_counter s dict_key "total_contributions".

(** The copies under the pairs and the primary records agree: a record
    is under some pair exactly when it is the primary record of its id. *)
Definition in_sync (s : Store) : Prop :=
  forall (contribution_id : string) (c : dict),
    contributions s !! contribution_id = Some c <->
    exists dict_key : string, translations s !! (dict_key, contribution_id) = Some c.

(** The value of [existing_translation] at line 188 of app.py, after
    both checks. *)
Definition existing_in (TEMPORARY_DICTIONARIES : odict (odict string)) (s : Store)
    (dict_key source_text source_language target_language : string) : value :=
  let existing_translation :=
    dictionary_translation TEMPORARY_DICTIONARIES dict_key source_text in
  if truthy existing_translation then existing_translation
  else match query (contributions s)
               (validated_filters source_text source_language target_language) 1 with
       | approved :: _ => default VNone (approved !! "target_text")
       | [] => existing_translation
       end.

(** ** Sample data *)

Module Sample.

(** A table with one bucket; the entry of "blank" has no text. *)
Definition dictionaries : odict (odict string) :=
  [("en-fr", [("hello", "bonjour"); ("blank", "")])].

(** A matcher that answers the first candidate with a given score. *)
Definition scoring (score : Z) (query : string) (choices : list string)
  : option (string * Z) :=
  match choices with
  | c :: _ => Some (c, score)
  | [] => None
  end.

Definition resolve (sourceLang targetLang text : string) : dict :=
  dict_of [("sourceLang", VStr sourceLang); ("targetLang", VStr targetLang);
           ("text", VStr text)].

Definition contribution (source_text target_text source_language target_language : string)
  : dict :=
  dict_of [("source_text", VStr source_text); ("target_text", VStr target_text);
           ("source_language", VStr source_language);
           ("target_language", VStr target_language)].

(** A store that holds one pending contribution, cat to chat. *)
Definition pending_cat : Store :=
  saved empty_store "en-fr" "id-0" "en" "fr" "t0"
    (contribution_record "id-0" "cat" "chat" "en" "fr" "" "" "t0").

(** A store that holds one validated contribution, cat to chat. *)
Definition validated_cat : Store :=
  mkStore
    {[ "id-9" := <["status" := VStr "validated"]>
                   (contribution_record "id-9" "cat" "chat" "en" "fr" "" "" "t9") ]}
    ∅ ∅.

(** Two contributions to a pair that has no aggregate yet. *)
Definition first_two : list (prog response) :=
  [contribute dictionaries (contribution "cat" "chat" "en" "fr") "id-1" "t1";
   contribute dictionaries (contribution "dog" "chien" "en" "fr") "id-2" "t2"].

(** Each request makes seven calls: the store is opened, the validated
    duplicate is looked for, the record is written, the aggregate is
    read, created, incremented, and the copy is written.  Here both
    requests read the aggregate before either creates it. *)
Definition racing : list nat := [0; 0; 0; 0; 1; 1; 1; 1; 0; 0; 1; 1; 0; 1]%nat.

(** The first request is served to its end, then the second. *)
Definition in_turn : list nat := [0; 0; 0; 0; 0; 0; 0; 1; 1; 1; 1; 1; 1; 1]%nat.

End Sample.

(** ** The health check *)

(** [health_check()], lines 45-47 of app.py. *)
Definition health_check (TEMPORARY_DICTIONARIES : odict (odict string)) : prog response :=
  Ret (dict_of [("status", VStr "healthy");
                ("dictionary_languages", VList (od_keys TEMPORARY_DICTIONARIES))], 200).

(** ** Kinds of calls and of programs *)

(** The calls that leave the store as it is. *)
Definition is_read {X : Type} (c : call X) : bool :=
  match c with
  | ExtractOne _ _ | InitializeFirebase | WhereContributions _ _ | GetLanguagePair _ => true
  | SetContribution _ _ | SetLanguagePair _ _ | UpdateLanguagePair _ _
  | SetTranslation _ _ _ => false
  end.

(** A program all of whose calls, on every path, are reads. *)
Fixpoint reads_only {A : Type} (p : prog A) : Prop :=
  match p with
  | Ret _ | Raise _ => True
  | Call c k => is_read c = true /\ forall x, reads_only (k x)
  end.

(** An aggregate whose total counter is at least its pending counter. *)
Definition aggregate_ok (d : dict) : Prop :=
  counter d "pending_contributions" <= counter d "total_contributions".

(** A call that cannot break [aggregate_ok]: an aggregate is written
    whole only in that state, and updated only in a way that keeps it. *)
Definition keeps_aggregates {X : Type} (c : call X) : Prop :=
  match c with
  | SetLanguagePair _ d => aggregate_ok d
  | UpdateLanguagePair _ fts => forall d, aggregate_ok d -> aggregate_ok (apply_update d fts)
  | _ => True
  end.

(** A program all of whose calls, on every path, keep the aggregates. *)
Fixpoint aggregate_safe {A : Type} (p : prog A) : Prop :=
  match p with
  | Ret _ | Raise _ => True
  | Call c k => keeps_aggregates c /\ forall x, aggregate_safe (k x)
  end.

(** The handler of an operation. *)
Definition handler (TEMPORARY_DICTIONARIES : odict (odict string)) (op : operation)
  : prog response :=
  match op with
  | Resolve data => translate TEMPORARY_DICTIONARIES data
  | Contribute data contribution_id timestamp =>
      contribute TEMPORARY_DICTIONARIES data contribution_id timestamp
  end.

(** ** Counting accepted contributions *)



(** The normal form of the source text of [contribute]:
    [.strip().lower()]. *)
Definition normalize_source (s : string) : string := Py.lower (Py.strip s).

(** The status codes of the two handlers. *)
Definition translate_statuses : list Z := [200; 400; 404; 500].
Definition contribute_statuses : list Z := [201; 400; 409; 500].

(** ** Named responses and conditions of [translate] *)

(** The body and status [internal_error] returns. *)
Definition error_response (e : exn) : response :=
  (dict_of [("error", VStr "Internal server error");
            ("message", VStr (PyExn.str e))], 500).

(** The response of lines 113-122. *)
Definition pending_response (source_lang target_lang text : string) (target_text : value)
  : response :=
  (dict_of [("originalText", VStr text);
            ("translation", target_text);
            ("matchType", VStr "pending");
            ("note", VStr "This is a pending contribution awaiting review");
            ("sourceLang", VStr source_lang);
            ("targetLang", VStr target_lang)], 200).

(** The response of lines 124-132. *)
Definition no_match_response (source_lang target_lang text : string) : response :=
  (dict_of [("originalText", VStr text);
            ("translation", VStr ("No translation found for '" +:+ text +:+ "'"));
            ("matchType", VStr "none");
            ("sourceLang", VStr source_lang);
            ("targetLang", VStr target_lang);
            ("suggestion", VStr "Consider contributing a translation")], 404).

(** The filters of the query of lines 107-111. *)
Definition pending_filters (source_text source_language target_language : string)
  : list (string * string) :=
  [("source_text", source_text); ("source_language", source_language);
   ("target_language", target_language); ("status", "pending")].

(** The conditions under which [translate] gets to line 105 with the
    normalised inputs: the pair has a bucket without the text, and the
    bucket is empty or the matcher scores its best candidate under 70. *)
Definition reaches_pending (TEMPORARY_DICTIONARIES : odict (odict string))
    (extractOne : string -> list string -> option (string * Z))
    (source_lang target_lang text : string) : Prop :=
  exists dictionary : odict string,
    od_get TEMPORARY_DICTIONARIES (pair_key source_lang target_lang) = Some dictionary
    /\ od_get dictionary text = None
    /\ (od_nonempty dictionary = false
        \/ exists (best_match : string) (score : Z),
             od_nonempty dictionary = true
             /\ extractOne text (od_keys dictionary) = Some (best_match, score)
             /\ score < 70).

(** The responses [translate] can give on normalised inputs that are
    strings, each with what the table, the matcher or the store held. *)
Definition translate_outcome (TEMPORARY_DICTIONARIES : odict (odict string))
    (extractOne : string -> list string -> option (string * Z)) (s : Store)
    (source_lang target_lang text : string) (r : response) : Prop :=
  r = (dict_of [("error", VStr "No text provided for translation")], 400)
  \/ r = (dict_of [("error", VStr "Source or target language not specified")], 400)
  \/ (exists e : exn, r = error_response e)
  \/ (r = not_supported_response TEMPORARY_DICTIONARIES source_lang target_lang
      /\ od_get TEMPORARY_DICTIONARIES (pair_key source_lang target_lang) = None)
  \/ (exists (dictionary : odict string) (translation : string),
        od_get TEMPORARY_DICTIONARIES (pair_key source_lang target_lang) = Some dictionary
        /\ od_get dictionary text = Some translation
        /\ r = exact_response source_lang target_lang text translation)
  \/ (exists (dictionary : odict string) (translation best_match : string) (score : Z),
        od_get TEMPORARY_DICTIONARIES (pair_key source_lang target_lang) = Some dictionary
        /\ od_get dictionary text = None
        /\ extractOne text (od_keys dictionary) = Some (best_match, score)
        /\ 70 <= score
        /\ od_get dictionary best_match = Some translation
        /\ r = fuzzy_response source_lang target_lang text translation score best_match)
  \/ (exists (d : dict) (rest : list dict) (v : value),
        query (contributions s) (pending_filters text source_lang target_lang) 1 = d :: rest
        /\ d !! "target_text" = Some v
        /\ r = pending_response source_lang target_lang text v)
  \/ r = no_match_response source_lang target_lang text.

(** A string of white space only (the empty string is one). *)
Fixpoint blank (s : string) : bool :=
  match s with
  | EmptyString => true
  | String c s' => Py.is_space c && blank s'
  end.

(** ** More sample data *)

Module More.

(** A table with a bucket that has one entry and a bucket that is
    empty. *)
Definition dictionaries : odict (odict string) :=
  [("en-fr", [("hello", "bonjour")]); ("en-es", [])].

(** A store that holds one pending contribution, cat to gato. *)
Definition pending_gato : Store :=
  saved empty_store "en-es" "id-4" "en" "es" "t4"
    (contribution_record "id-4" "cat" "gato" "en" "es" "" "" "t4").

(** A store whose pending contribution of cat has lost its target
    text. *)
Definition pending_without_text : Store :=
  mkStore
    {[ "id-5" := delete "target_text"
                   (contribution_record "id-5" "cat" "gato" "en" "es" "" "" "t5") ]}
    ∅ ∅.

(** A resolution request whose text is a number. *)
Definition numeric_text : dict :=
  dict_of [("sourceLang", VStr "en"); ("targetLang", VStr "fr"); ("text", VInt 5)].

(** A contribution whose optional source example is a number. *)
Definition numeric_example : dict :=
  dict_of [("source_text", VStr "cat"); ("target_text", VStr "chat");
           ("source_language", VStr "en"); ("target_language", VStr "fr");
           ("source_example", VInt 5)].

End More.

(** ** The handlers over any text *)

Module Text.

Section Methods.

(** [str.lower] and [str.strip] of Python, on text of any alphabet. *)
Variable lower strip : string -> string.

Variable TEMPORARY_DICTIONARIES : odict (odict string).

(** [translate()], lines 50-136 of app.py. *)
Definition translate (data : dict) : prog response :=
  try_except
    (source_lang ← get_str data "sourceLang" "lower";
     target_lang ← get_str data "targetLang" "lower";
     text ← get_str data "text" "lower";
     translate_body TEMPORARY_DICTIONARIES
       (strip (lower source_lang)) (strip (lower target_lang)) (strip (lower text)))
    internal_error.

(** [contribute()], lines 139-258 of app.py. *)
Definition contribute (data : dict) (contribution_id timestamp : string) : prog response :=
  try_except
    (_ ← perform InitializeFirebase;
     source_text ← get_str data "source_text" "strip";
     target_text ← get_str data "target_text" "strip";
     source_language ← get_str data "source_language" "lower";
     target_language ← get_str data "target_language" "lower";
     source_example ← get_str data "source_example" "strip";
     target_example ← get_str data "target_example" "strip";
     contribute_body TEMPORARY_DICTIONARIES
       (lower (strip source_text)) (strip target_text)
       (strip (lower source_language)) (strip (lower target_language))
       (strip source_example) (strip target_example)
       contribution_id timestamp)
    internal_error.

End Methods.

End Text.

(** * Properties *)

(** ** Normalisation of strings *)

Example lower_strip_hello : Py.strip (Py.lower "  Hello World ") = "hello world".
Proof. reflexivity. Qed.

Module PyFacts.
Import Py.

Lemma lower_char_idem (c : ascii) : lower_char (lower_char c) = lower_char c.
Proof. destruct c as [[] [] [] [] [] [] [] []]; reflexivity. Qed.

Lemma is_space_lower_char (c : ascii) : is_space (lower_char c) = is_space c.
Proof. destruct c as [[] [] [] [] [] [] [] []]; reflexivity. Qed.

Lemma lower_idem (s : string) : lower (lower s) = lower s.
Proof. induction s as [|c s IH]; simpl; [reflexivity|]. by rewrite lower_char_idem, IH. Qed.

Lemma lower_lstrip (s : string) : lower (lstrip s) = lstrip (lower s).
Proof.
  induction s as [|c s IH]; simpl; [reflexivity|].
  rewrite is_space_lower_char. destruct (is_space c); [exact IH | reflexivity].
Qed.

Lemma lower_rstrip (s : string) : lower (rstrip s) = rstrip (lower s).
Proof.
  induction s as [|c s IH]; simpl; [reflexivity|].
  rewrite <- IH, is_space_lower_char.
  destruct (rstrip s); simpl; [destruct (is_space c)|]; reflexivity.
Qed.

Lemma lower_strip (s : string) : lower (strip s) = strip (lower s).
Proof. unfold strip. by rewrite lower_rstrip, lower_lstrip. Qed.

Lemma lstrip_trimmed_left (s : string) : trimmed_left (lstrip s).
Proof.
  induction s as [|c s IH]; simpl; [exact I|].
  destruct (is_space c) eqn:E; [exact IH | exact E].
Qed.

Lemma lstrip_fixed (s : string) : trimmed_left s -> lstrip s = s.
Proof. destruct s as [|c s]; simpl; [reflexivity|]. by intros ->. Qed.

Lemma rstrip_trimmed_left (s : string) : trimmed_left s -> trimmed_left (rstrip s).
Proof.
  destruct s as [|c s]; simpl; [done|]. intros E.
  destruct (rstrip s); simpl; [rewrite E|]; exact E.
Qed.

Lemma rstrip_idem (s : string) : rstrip (rstrip s) = rstrip s.
Proof.
  induction s as [|c s IH]; simpl; [reflexivity|].
  destruct (rstrip s) as [|c' r] eqn:E.
  - destruct (is_space c) eqn:Ec; simpl; [reflexivity | by rewrite Ec].
  - simpl in *. by rewrite IH.
Qed.

Lemma strip_idem (s : string) : strip (strip s) = strip s.
Proof.
  unfold strip.
  rewrite (lstrip_fixed (rstrip (lstrip s))).
  - apply rstrip_idem.
  - apply rstrip_trimmed_left, lstrip_trimmed_left.
Qed.

End PyFacts.

Lemma normalize_idem (s : string) : normalize (normalize s) = normalize s.
Proof.
  unfold normalize.
  by rewrite <- PyFacts.lower_strip, PyFacts.strip_idem, PyFacts.lower_strip, PyFacts.lower_idem.
Qed.

Lemma truthy_str_true (s : string) : s <> "" -> Py.truthy_str s = true.
Proof. by destruct s. Qed.

(** ** Reading the request *)

Lemma get_str_field (data : dict) (k attr s : string) :
  str_field data k = Some s -> get_str data k attr = Ret s.
Proof.
  unfold str_field, get_str. destruct (data !! k) as [[]|]; congruence.
Qed.

Section Properties.

Variable TEMPORARY_DICTIONARIES : odict (odict string).
Variable extractOne : string -> list string -> option (string * Z).

Lemma translate_fields (data : dict) (sl tl text : string) :
  str_field data "sourceLang" = Some sl ->
  str_field data "targetLang" = Some tl ->
  str_field data "text" = Some text ->
  translate TEMPORARY_DICTIONARIES data =
  try_except (translate_body TEMPORARY_DICTIONARIES
                (normalize sl) (normalize tl) (normalize text)) internal_error.
Proof.
  intros Hs Ht Hx. unfold translate.
  rewrite (get_str_field _ _ _ _ Hs), (get_str_field _ _ _ _ Ht), (get_str_field _ _ _ _ Hx).
  reflexivity.
Qed.

Lemma contribute_fields (data : dict) (st tt sl tl se te id ts : string) :
  str_field data "source_text" = Some st ->
  str_field data "target_text" = Some tt ->
  str_field data "source_language" = Some sl ->
  str_field data "target_language" = Some tl ->
  str_field data "source_example" = Some se ->
  str_field data "target_example" = Some te ->
  contribute TEMPORARY_DICTIONARIES data id ts =
  Call InitializeFirebase (fun _ =>
    try_except (contribute_body TEMPORARY_DICTIONARIES
                  (Py.lower (Py.strip st)) (Py.strip tt) (normalize sl) (normalize tl)
                  (Py.strip se) (Py.strip te) id ts) internal_error).
Proof.
  intros H1 H2 H3 H4 H5 H6. unfold contribute.
  rewrite (get_str_field _ _ _ _ H1), (get_str_field _ _ _ _ H2), (get_str_field _ _ _ _ H3),
    (get_str_field _ _ _ _ H4), (get_str_field _ _ _ _ H5), (get_str_field _ _ _ _ H6).
  reflexivity.
Qed.


(** ** Queries *)

Lemma documents_elem (c : gmap string dict) (d : dict) :
  d ∈ documents c <-> exists id : string, c !! id = Some d.
Proof.
  unfold documents. rewrite list_elem_of_fmap. split.
  - intros [[id d'] [-> Hin]]. exists id.
    rewrite merge_sort_Permutation in Hin. by apply elem_of_map_to_list in Hin.
  - intros [id Hid]. exists (id, d). split; [reflexivity|].
    rewrite merge_sort_Permutation. by apply elem_of_map_to_list.
Qed.

Lemma filter_none {A : Type} (f : A -> bool) (l : list A) :
  (forall x, x ∈ l -> f x = false) -> List.filter f l = [].
Proof.
  induction l as [|x l IH]; simpl; intros H; [reflexivity|].
  rewrite (H x) by left. apply IH. intros y Hy. apply H. by right.
Qed.

Lemma query_none (c : gmap string dict) (filters : list (string * string)) (limit : nat) :
  (forall id d, c !! id = Some d -> matches filters d = false) ->
  query c filters limit = [].
Proof.
  intros H. unfold query. rewrite filter_none; [by destruct limit|].
  intros d [id Hid]%documents_elem. eauto.
Qed.

Lemma query_head (c : gmap string dict) (filters : list (string * string)) (limit : nat)
    (d : dict) (rest : list dict) :
  query c filters limit = d :: rest ->
  matches filters d = true /\ exists id : string, c !! id = Some d.
Proof.
  unfold query. intros H.
  assert (Hin : d ∈ List.filter (matches filters) (documents c)).
  { apply (subseteq_take limit). rewrite H. left. }
  apply list_elem_of_In, filter_In in Hin. destruct Hin as [Hin Hm].
  split; [exact Hm|]. apply documents_elem, list_elem_of_In, Hin.
Qed.

(** ** What [contribute] does *)

Lemma run_find_existing (s : Store) (dict_key st sl tl : string) :
  run extractOne (find_existing TEMPORARY_DICTIONARIES dict_key st sl tl) s =
  (inr (existing_in TEMPORARY_DICTIONARIES s dict_key st sl tl), s).
Proof.
  unfold find_existing, existing_in.
  destruct (truthy (dictionary_translation _ _ _)); [reflexivity|].
  cbn. fold (validated_filters st sl tl).
  destruct (query _ _ _); reflexivity.
Qed.

Lemma run_save_contribution (s : Store) (id key sl tl ts : string) (c : dict) :
  run extractOne (save_contribution id key sl tl ts c) s =
  (inr (success_response id key), saved s key id sl tl ts c).
Proof.
  unfold save_contribution, saved. cbn.
  destruct (language_pairs s !! key) as [d|] eqn:E; cbn.
  - rewrite E. reflexivity.
  - rewrite lookup_insert_eq. cbn. by rewrite insert_insert_eq.
Qed.

Lemma run_try_except {A : Type} (p : prog A) (h : exn -> prog A) (s : Store) :
  run extractOne (try_except p h) s =
  match run extractOne p s with
  | (inr a, s') => (inr a, s')
  | (inl e, s') => run extractOne (h e) s'
  end.
Proof.
  revert s. induction p as [a|e|X c k IH]; intros s; cbn; [reflexivity..|]. apply IH.
Qed.

Lemma run_bind {A B : Type} (p : prog A) (f : A -> prog B) (s : Store) :
  run extractOne (bind p f) s =
  match run extractOne p s with
  | (inr a, s') => run extractOne (f a) s'
  | (inl e, s') => (inl e, s')
  end.
Proof.
  revert s. induction p as [a|e|X c k IH]; intros s; cbn; [reflexivity..|]. apply IH.
Qed.

(** The outcome of [contribute] on a request whose fields are strings
    and pass validation. *)
Lemma run_contribute (data : dict) (st tt sl tl se te id ts : string) (s : Store) :
  str_field data "source_text" = Some st ->
  str_field data "target_text" = Some tt ->
  str_field data "source_language" = Some sl ->
  str_field data "target_language" = Some tl ->
  str_field data "source_example" = Some se ->
  str_field data "target_example" = Some te ->
  valid_contribution (Py.lower (Py.strip st)) (Py.strip tt) (normalize sl) (normalize tl) ->
  let key := pair_key (normalize sl) (normalize tl) in
  let existing :=
    existing_in TEMPORARY_DICTIONARIES s key (Py.lower (Py.strip st))
      (normalize sl) (normalize tl) in
  run extractOne (contribute TEMPORARY_DICTIONARIES data id ts) s =
  if truthy existing then (inr (duplicate_response existing), s)
  else (inr (success_response id key),
        saved s key id (normalize sl) (normalize tl) ts
          (contribution_record id (Py.lower (Py.strip st)) (Py.strip tt)
             (normalize sl) (normalize tl) (Py.strip se) (Py.strip te) ts)).
Proof.
  intros H1 H2 H3 H4 H5 H6 (V1 & V2 & V3 & V4) key existing.
  rewrite (contribute_fields _ _ _ _ _ _ _ _ _ H1 H2 H3 H4 H5 H6).
  cbn [run exec fst snd]. rewrite run_try_except.
  unfold contribute_body.
  rewrite !truthy_str_true by assumption. cbn [negb orb].
  change (mbind ?f ?p) with (bind p f).
  rewrite run_bind, run_find_existing.
  change (normalize sl +:+ "-" +:+ normalize tl) with key. fold existing.
  destruct (truthy existing); [reflexivity|].
  by rewrite run_save_contribution.
Qed.

(** ** Resolution *)

Lemma od_get_keys {V : Type} (d : odict V) (k : string) :
  k ∈ od_keys d <-> is_Some (od_get d k).
Proof.
  induction d as [|[k' v] d IH]; simpl.
  - split; [by intros ?%elem_of_nil | by intros [? ?]].
  - rewrite elem_of_cons, IH. destruct (String.eqb_spec k k') as [->|Hne].
    + split; [eauto | by left].
    + split; [by intros [?|?] | by right].
Qed.

Lemma translate_valid (data : dict) (sl tl text : string) :
  str_field data "sourceLang" = Some sl ->
  str_field data "targetLang" = Some tl ->
  str_field data "text" = Some text ->
  valid_resolution (normalize sl) (normalize tl) (normalize text) ->
  translate TEMPORARY_DICTIONARIES data =
  try_except
    (match od_get TEMPORARY_DICTIONARIES (pair_key (normalize sl) (normalize tl)) with
     | None => Ret (not_supported_response TEMPORARY_DICTIONARIES (normalize sl) (normalize tl))
     | Some dictionary =>
         match od_get dictionary (normalize text) with
         | Some translation =>
             Ret (exact_response (normalize sl) (normalize tl) (normalize text) translation)
         | None =>
             if od_nonempty dictionary
             then fuzzy_tier dictionary (normalize sl) (normalize tl) (normalize text)
             else pending_tier (normalize sl) (normalize tl) (normalize text)
         end
     end) internal_error.
Proof.
  intros Hs Ht Hx (V1 & V2 & V3).
  rewrite (translate_fields _ _ _ _ Hs Ht Hx). unfold translate_body.
  by rewrite !truthy_str_true by assumption.
Qed.

(** C1.  A request that passes validation and whose normalised text is a
    key of the bucket of its pair is answered by the exact tier: the
    handler is the program that returns the bucket's translation with
    matchType "exact" and status 200 without a call to the matcher or
    to the store, so whatever the matcher would score and whatever the
    store holds, the response is that one and is not a fuzzy one. *)
Theorem exact_tier_first (data : dict) (sl tl text : string)
    (dictionary : odict string) (translation : string) :
  str_field data "sourceLang" = Some sl ->
  str_field data "targetLang" = Some tl ->
  str_field data "text" = Some text ->
  valid_resolution (normalize sl) (normalize tl) (normalize text) ->
  od_get TEMPORARY_DICTIONARIES (pair_key (normalize sl) (normalize tl)) = Some dictionary ->
  od_get dictionary (normalize text) = Some translation ->
  let exact := exact_response (normalize sl) (normalize tl) (normalize text) translation in
  translate TEMPORARY_DICTIONARIES data = Ret exact
  /\ (forall s : Store,
        run extractOne (translate TEMPORARY_DICTIONARIES data) s = (inr exact, s))
  /\ exact.1 !! "matchType" = Some (VStr "exact")
  /\ exact.1 !! "translation" = Some (VStr translation)
  /\ exact.1 !! "matchType" <> Some (VStr "fuzzy").
Proof.
  intros Hs Ht Hx Hv Hd Hk exact.
  assert (E : translate TEMPORARY_DICTIONARIES data = Ret exact).
  { rewrite (translate_valid _ _ _ _ Hs Ht Hx Hv), Hd, Hk. reflexivity. }
  split; [exact E|]. split; [intros s; rewrite E; reflexivity|].
  repeat split; try (vm_compute; congruence).
Qed.

(** C5.  A request that passes validation and whose pair has no bucket
    is answered, without any call to a collaborator, by the response of
    status 404 (not 500) whose supportedPairs lists the keys of the
    table, which are exactly the keys that have a bucket. *)
Theorem unsupported_pair (data : dict) (sl tl text : string) :
  str_field data "sourceLang" = Some sl ->
  str_field data "targetLang" = Some tl ->
  str_field data "text" = Some text ->
  valid_resolution (normalize sl) (normalize tl) (normalize text) ->
  od_get TEMPORARY_DICTIONARIES (pair_key (normalize sl) (normalize tl)) = None ->
  let unsupported :=
    not_supported_response TEMPORARY_DICTIONARIES (normalize sl) (normalize tl) in
  translate TEMPORARY_DICTIONARIES data = Ret unsupported
  /\ (forall s : Store,
        run extractOne (translate TEMPORARY_DICTIONARIES data) s = (inr unsupported, s))
  /\ unsupported.2 = 404
  /\ unsupported.1 !! "supportedPairs" = Some (VList (od_keys TEMPORARY_DICTIONARIES))
  /\ (forall k : string,
        k ∈ od_keys TEMPORARY_DICTIONARIES <-> is_Some (od_get TEMPORARY_DICTIONARIES k)).
Proof.
  intros Hs Ht Hx Hv Hd unsupported.
  assert (E : translate TEMPORARY_DICTIONARIES data = Ret unsupported).
  { rewrite (translate_valid _ _ _ _ Hs Ht Hx Hv), Hd. reflexivity. }
  split; [exact E|]. split; [intros s; rewrite E; reflexivity|].
  split; [reflexivity|]. split; [vm_compute; reflexivity|].
  intros k. apply od_get_keys.
Qed.

(** The pending tier answers "pending", "none" or an internal error,
    and leaves the store as it is. *)
Lemma run_pending_tier (sl tl text : string) (s : Store) :
  exists r : response,
    run extractOne (try_except (pending_tier sl tl text) internal_error) s = (inr r, s)
    /\ r.1 !! "matchType" <> Some (VStr "fuzzy").
Proof.
  unfold pending_tier. cbn.
  destruct (query _ _ _) as [|pending_data rest]; cbn.
  - eexists. split; [reflexivity|]. vm_compute. congruence.
  - unfold getitem. destruct (pending_data !! "target_text") as [v|]; cbn.
    + eexists. split; [reflexivity|]. vm_compute. congruence.
    + eexists. split; [reflexivity|]. vm_compute. congruence.
Qed.

(** C2.  On a request that reaches the fuzzy tier (it passes validation,
    its pair has a bucket that is not empty and that has no entry for
    the text) and for which the matcher answers a bucket key with a
    score, the response is the fuzzy one exactly when the score is at
    least 70: from 70 on the response carries the translation of the
    matched word with matchType "fuzzy", the score and the word; below
    70 the handler goes on as the pending tier does, and its response
    is not a fuzzy one. *)
Theorem fuzzy_threshold (data : dict) (sl tl text : string) (dictionary : odict string)
    (best_match : string) (score : Z) (translation : string) (s : Store) :
  str_field data "sourceLang" = Some sl ->
  str_field data "targetLang" = Some tl ->
  str_field data "text" = Some text ->
  valid_resolution (normalize sl) (normalize tl) (normalize text) ->
  od_get TEMPORARY_DICTIONARIES (pair_key (normalize sl) (normalize tl)) = Some dictionary ->
  od_nonempty dictionary = true ->
  od_get dictionary (normalize text) = None ->
  extractOne (normalize text) (od_keys dictionary) = Some (best_match, score) ->
  od_get dictionary best_match = Some translation ->
  let out := run extractOne (translate TEMPORARY_DICTIONARIES data) s in
  let fuzzy :=
    fuzzy_response (normalize sl) (normalize tl) (normalize text) translation score best_match in
  ((exists r : response, out = (inr r, s) /\ r.1 !! "matchType" = Some (VStr "fuzzy"))
   <-> 70 <= score)
  /\ (70 <= score ->
      out = (inr fuzzy, s)
      /\ fuzzy.1 !! "matchType" = Some (VStr "fuzzy")
      /\ fuzzy.1 !! "translation" = Some (VStr translation)
      /\ fuzzy.1 !! "matchedWord" = Some (VStr best_match)
      /\ fuzzy.1 !! "fuzzyMatchScore" = Some (VInt score))
  /\ (score < 70 ->
      out = run extractOne
              (try_except (pending_tier (normalize sl) (normalize tl) (normalize text))
                 internal_error) s).
Proof.
  intros Hs Ht Hx Hv Hd Hne Hk Hm Hb out fuzzy.
  assert (Hi : 70 <= score -> out = (inr fuzzy, s)).
  { intros Hge. unfold out.
    rewrite (translate_valid _ _ _ _ Hs Ht Hx Hv), Hd, Hk, Hne.
    unfold fuzzy_tier. cbn. rewrite Hm. cbn.
    destruct (Z.leb_spec 70 score); [|lia].
    unfold od_getitem. rewrite Hb. reflexivity. }
  assert (Hlo : score < 70 ->
                out = run extractOne
                        (try_except (pending_tier (normalize sl) (normalize tl) (normalize text))
                           internal_error) s).
  { intros Hlt. unfold out.
    rewrite (translate_valid _ _ _ _ Hs Ht Hx Hv), Hd, Hk, Hne.
    unfold fuzzy_tier. cbn. rewrite Hm. cbn.
    destruct (Z.leb_spec 70 score); [lia|]. reflexivity. }
  split; [|split; [|exact Hlo]].
  - split.
    + intros (r & Hr & Hf). destruct (Z.le_gt_cases 70 score) as [?|Hlt]; [assumption|].
      exfalso. rewrite (Hlo Hlt) in Hr.
      destruct (run_pending_tier (normalize sl) (normalize tl) (normalize text) s)
        as (r' & Hr' & Hnf).
      rewrite Hr' in Hr. injection Hr as <-. contradiction.
    + intros Hge. exists fuzzy. split; [exact (Hi Hge)|]. vm_compute. reflexivity.
  - intros Hge. split; [exact (Hi Hge)|]. repeat split; vm_compute; reflexivity.
Qed.

(** With the ASCII methods the handlers over any text are [translate]
    and [contribute]. *)
Lemma text_handlers_ascii (data : dict) (id ts : string) :
  Text.translate Py.lower Py.strip TEMPORARY_DICTIONARIES data
  = translate TEMPORARY_DICTIONARIES data
  /\ Text.contribute Py.lower Py.strip TEMPORARY_DICTIONARIES data id ts
     = contribute TEMPORARY_DICTIONARIES data id ts.
Proof. split; reflexivity. Qed.

Lemma text_translate_fields (lower strip : string -> string) (data : dict)
    (sl tl text : string) :
  str_field data "sourceLang" = Some sl ->
  str_field data "targetLang" = Some tl ->
  str_field data "text" = Some text ->
  Text.translate lower strip TEMPORARY_DICTIONARIES data =
  try_except (translate_body TEMPORARY_DICTIONARIES
                (strip (lower sl)) (strip (lower tl)) (strip (lower text))) internal_error.
Proof.
  intros Hs Ht Hx. unfold Text.translate.
  rewrite (get_str_field _ _ _ _ Hs), (get_str_field _ _ _ _ Ht), (get_str_field _ _ _ _ Hx).
  reflexivity.
Qed.

(** C9.  [str.lower] and [str.strip] are any two functions on text such
    that a text that was lower-cased and trimmed is not changed by
    doing so again.  Two requests are given, the second with the
    lower-cased and trimmed forms of the source language, target
    language and text of the first: [translate] is the same program on
    both, so it gives the same response on every store and with every
    matcher. *)
Theorem normalization_invariance (lower strip : string -> string) (data data' : dict)
    (sl tl text : string) (s : Store) :
  (forall t : string, strip (lower (strip (lower t))) = strip (lower t)) ->
  str_field data "sourceLang" = Some sl ->
  str_field data "targetLang" = Some tl ->
  str_field data "text" = Some text ->
  str_field data' "sourceLang" = Some (strip (lower sl)) ->
  str_field data' "targetLang" = Some (strip (lower tl)) ->
  str_field data' "text" = Some (strip (lower text)) ->
  Text.translate lower strip TEMPORARY_DICTIONARIES data'
  = Text.translate lower strip TEMPORARY_DICTIONARIES data
  /\ run extractOne (Text.translate lower strip TEMPORARY_DICTIONARIES data') s
     = run extractOne (Text.translate lower strip TEMPORARY_DICTIONARIES data) s.
Proof.
  intros Hidem Hs Ht Hx Hs' Ht' Hx'.
  assert (E : Text.translate lower strip TEMPORARY_DICTIONARIES data'
              = Text.translate lower strip TEMPORARY_DICTIONARIES data).
  { rewrite (text_translate_fields _ _ _ _ _ _ Hs Ht Hx),
      (text_translate_fields _ _ _ _ _ _ Hs' Ht' Hx').
    by rewrite !Hidem. }
  split; [exact E | by rewrite E].
Qed.

(** ** Contribution: every request *)

Lemma run_contribute_body (st tt sl tl se te id ts : string) (s : Store) :
  let out :=
    run extractOne
      (try_except (contribute_body TEMPORARY_DICTIONARIES st tt sl tl se te id ts)
         internal_error) s in
  (exists r : response, out = (inr r, s) /\ r.2 <> 201)
  \/ out = (inr (success_response id (pair_key sl tl)),
            saved s (pair_key sl tl) id sl tl ts
              (contribution_record id st tt sl tl se te ts)).
Proof.
  cbn zeta. rewrite run_try_except. unfold contribute_body.
  destruct (negb (Py.truthy_str st) || negb (Py.truthy_str tt)).
  { left. eexists. split; [reflexivity | done]. }
  destruct (negb (Py.truthy_str sl) || negb (Py.truthy_str tl)).
  { left. eexists. split; [reflexivity | done]. }
  change (mbind ?f ?p) with (bind p f).
  rewrite run_bind, run_find_existing.
  destruct (truthy _).
  - left. eexists. split; [reflexivity | done].
  - right. by rewrite run_save_contribution.
Qed.

Lemma get_str_cases (data : dict) (k attr : string) :
  (exists s : string, get_str data k attr = Ret s)
  \/ (exists e : exn, get_str data k attr = Raise e).
Proof. unfold get_str. destruct (data !! k) as [[]|]; eauto. Qed.

(** Whatever the request, [contribute] answers, and either it leaves the
    store as it is and answers another status than 201, or it answers
    201 and the store is the one after the three writes. *)
Lemma run_contribute_cases (data : dict) (id ts : string) (s : Store) :
  let out := run extractOne (contribute TEMPORARY_DICTIONARIES data id ts) s in
  (exists r : response, out = (inr r, s) /\ r.2 <> 201)
  \/ (exists st tt sl tl se te : string,
        out = (inr (success_response id (pair_key sl tl)),
               saved s (pair_key sl tl) id sl tl ts
                 (contribution_record id st tt sl tl se te ts))).
Proof.
  cbn zeta. unfold contribute. cbn [mbind prog_bind perform bind try_except run exec fst snd].
  destruct (get_str_cases data "source_text" "strip") as [[st ->]|[e ->]];
    [|left; eexists; split; [reflexivity | done]].
  destruct (get_str_cases data "target_text" "strip") as [[tt ->]|[e ->]];
    [|left; eexists; split; [reflexivity | done]].
  destruct (get_str_cases data "source_language" "lower") as [[sl ->]|[e ->]];
    [|left; eexists; split; [reflexivity | done]].
  destruct (get_str_cases data "target_language" "lower") as [[tl ->]|[e ->]];
    [|left; eexists; split; [reflexivity | done]].
  destruct (get_str_cases data "source_example" "strip") as [[se ->]|[e ->]];
    [|left; eexists; split; [reflexivity | done]].
  destruct (get_str_cases data "target_example" "strip") as [[te ->]|[e ->]];
    [|left; eexists; split; [reflexivity | done]].
  cbn [bind].
  destruct (run_contribute_body (Py.lower (Py.strip st)) (Py.strip tt)
              (Py.strip (Py.lower sl)) (Py.strip (Py.lower tl))
              (Py.strip se) (Py.strip te) id ts s) as [H|H].
  - left. exact H.
  - right. do 6 eexists. exact H.
Qed.



(** ** Counters of the aggregate *)

Lemma dictionary_translation_absent (key st : string) :
  (forall dictionary : odict string,
     od_get TEMPORARY_DICTIONARIES key = Some dictionary -> od_get dictionary st = None) ->
  dictionary_translation TEMPORARY_DICTIONARIES key st = VNone.
Proof.
  intros H. unfold dictionary_translation.
  destruct (od_get TEMPORARY_DICTIONARIES key) as [dictionary|]; [|reflexivity].
  by rewrite (H dictionary).
Qed.


Lemma counter_insert_eq (d : dict) (f : string) (n : Z) :
  counter (<[f := VInt n]> d) f = n.
Proof. unfold counter. by rewrite lookup_insert_eq. Qed.

Lemma counter_insert_ne (d : dict) (f f' : string) (v : value) :
  f' <> f -> counter (<[f' := v]> d) f = counter d f.
Proof. intros Hne. unfold counter. by rewrite lookup_insert_ne. Qed.

(** The update of [contribute] adds one to the total and to the pending
    counter and leaves the validated counter. *)
Lemma counter_update_counters (d : dict) (ts : string) :
  let d' := apply_update d (counter_update ts) in
  counter d' "total_contributions" = counter d "total_contributions" + 1
  /\ counter d' "pending_contributions" = counter d "pending_contributions" + 1
  /\ counter d' "validated_contributions" = counter d "validated_contributions".
Proof.
  unfold apply_update, counter_update, apply_transform. cbn.
  repeat split.
  - rewrite !counter_insert_ne by done. by rewrite counter_insert_eq.
  - rewrite counter_insert_ne by done. rewrite counter_insert_eq.
    by rewrite counter_insert_ne by done.
  - by rewrite !counter_insert_ne by done.
Qed.

Lemma new_language_pair_counters (sl tl ts f : string) :
  f = "total_contributions" \/ f = "pending_contributions" \/ f = "validated_contributions" ->
  counter (new_language_pair sl tl ts) f = 0.
Proof. intros [->|[->| ->]]; vm_compute; reflexivity. Qed.

Lemma saved_counters (s : Store) (key id sl tl ts : string) (c : dict) :
  let s' := saved s key id sl tl ts c in
  aggregate_counter s' key "total_contributions"
    = aggregate_counter s key "total_contributions" + 1
  /\ aggregate_counter s' key "pending_contributions"
    = aggregate_counter s key "pending_contributions" + 1
  /\ aggregate_counter s' key "validated_contributions"
    = aggregate_counter s key "validated_contributions"
  /\ (forall key' f : string,
        key' <> key -> aggregate_counter s' key' f = aggregate_counter s key' f).
Proof.
  cbn zeta. unfold aggregate_counter, saved. cbn [language_pairs].
  rewrite lookup_insert_eq.
  destruct (counter_update_counters
              (default (new_language_pair sl tl ts) (language_pairs s !! key)) ts)
    as (Ht & Hp & Hv).
  rewrite Ht, Hp, Hv.
  repeat split.
  - destruct (language_pairs s !! key); cbn [default from_option]; [done|].
    rewrite new_language_pair_counters; eauto.
  - destruct (language_pairs s !! key); cbn [default from_option]; [done|].
    rewrite new_language_pair_counters; eauto.
  - destruct (language_pairs s !! key); cbn [default from_option]; [done|].
    rewrite new_language_pair_counters; eauto.
  - intros key' f Hne. by rewrite lookup_insert_ne.
Qed.




(** ** The primary record and its copy *)

Lemma saved_in_sync (s : Store) (key id sl tl ts : string) (c : dict) :
  contributions s !! id = None ->
  in_sync s -> in_sync (saved s key id sl tl ts c).
Proof.
  intros Hfresh Hsync id' c'. unfold saved. cbn [contributions translations].
  destruct (decide (id' = id)) as [->|Hne].
  - rewrite lookup_insert_eq. split.
    + intros [= <-]. exists key. by rewrite lookup_insert_eq.
    + intros [key' Hk]. destruct (decide (key' = key)) as [->|Hk'].
      * by rewrite lookup_insert_eq in Hk.
      * rewrite lookup_insert_ne in Hk by congruence.
        assert (Hc : contributions s !! id = Some c') by (apply Hsync; eauto).
        congruence.
  - rewrite lookup_insert_ne by done. rewrite (Hsync id' c').
    split; intros [key' Hk]; exists key'.
    + rewrite lookup_insert_ne by congruence. exact Hk.
    + rewrite lookup_insert_ne in Hk by congruence. exact Hk.
Qed.

(** C8.  After a contribution that is accepted (status 201) the primary
    collection holds a record under the new id and the subcollection of
    the pair named in the response holds the same record under the same
    id, both written by this one run of [contribute].  And if, before
    an accepted run of [contribute] with a new id, a record is under
    some pair exactly when it is the primary record of its id, then so
    it is after. *)
Theorem copy_in_sync (data : dict) (id ts : string) (s s' : Store) (r : response) :
  run extractOne (contribute TEMPORARY_DICTIONARIES data id ts) s = (inr r, s') ->
  (r.2 = 201 ->
   exists (key : string) (c : dict),
     r.1 !! "language_pair" = Some (VStr key)
     /\ r.1 !! "contribution_id" = Some (VStr id)
     /\ contributions s' !! id = Some c
     /\ translations s' !! (key, id) = Some c
     /\ c !! "id" = Some (VStr id)
     /\ c !! "status" = Some (VStr "pending"))
  /\ (r.2 = 201 -> contributions s !! id = None -> in_sync s -> in_sync s').
Proof.
  intros Hrun.
  destruct (run_contribute_cases data id ts s)
    as [(r0 & E & Hne)|(st & tt & sl & tl & se & te & E)];
    rewrite E in Hrun; injection Hrun as <- <-.
  - split; done.
  - split.
    + intros _. exists (pair_key sl tl), (contribution_record id st tt sl tl se te ts).
      unfold saved. cbn [contributions translations].
      rewrite !lookup_insert_eq. repeat split; vm_compute; reflexivity.
    + intros _. apply saved_in_sync.
Qed.

(** ** Duplicates *)

(** C3, as amended.  On a request that passes validation, the table is
    consulted first: a translation of the source text that is not empty
    makes the request a duplicate.  Otherwise the store is asked for one
    validated contribution of the same source text and languages, and a
    target text of that record that is true makes the request a
    duplicate.  A duplicate is answered with status 409, the text that
    was found and status "duplicate", and the store is left as it is. *)
Theorem duplicate_rejected (data : dict) (st tt sl tl se te id ts : string) (s : Store) :
  str_field data "source_text" = Some st ->
  str_field data "target_text" = Some tt ->
  str_field data "source_language" = Some sl ->
  str_field data "target_language" = Some tl ->
  str_field data "source_example" = Some se ->
  str_field data "target_example" = Some te ->
  valid_contribution (Py.lower (Py.strip st)) (Py.strip tt) (normalize sl) (normalize tl) ->
  let key := pair_key (normalize sl) (normalize tl) in
  let out := run extractOne (contribute TEMPORARY_DICTIONARIES data id ts) s in
  (forall (dictionary : odict string) (translation : string),
     od_get TEMPORARY_DICTIONARIES key = Some dictionary ->
     od_get dictionary (Py.lower (Py.strip st)) = Some translation ->
     translation <> "" ->
     find_existing TEMPORARY_DICTIONARIES key (Py.lower (Py.strip st))
       (normalize sl) (normalize tl) = Ret (VStr translation)
     /\ out = (inr (duplicate_response (VStr translation)), s))
  /\ (forall (approved : dict) (rest : list dict) (existing : value),
        truthy (dictionary_translation TEMPORARY_DICTIONARIES key (Py.lower (Py.strip st)))
          = false ->
        query (contributions s)
          (validated_filters (Py.lower (Py.strip st)) (normalize sl) (normalize tl)) 1
          = approved :: rest ->
        approved !! "target_text" = Some existing ->
        truthy existing = true ->
        out = (inr (duplicate_response existing), s))
  /\ (forall existing : value,
        (duplicate_response existing).2 = 409
        /\ (duplicate_response existing).1 !! "existing_translation" = Some existing
        /\ (duplicate_response existing).1 !! "status" = Some (VStr "duplicate")).
Proof.
  intros H1 H2 H3 H4 H5 H6 Hv key out.
  pose proof (run_contribute data st tt sl tl se te id ts s H1 H2 H3 H4 H5 H6 Hv) as Hrun.
  cbn zeta in Hrun. fold key in Hrun. fold out in Hrun.
  split; [|split].
  - intros dictionary translation Hd Hk Hne.
    assert (E : existing_in TEMPORARY_DICTIONARIES s key (Py.lower (Py.strip st))
                  (normalize sl) (normalize tl)
                = VStr translation).
    { unfold existing_in, dictionary_translation. rewrite Hd, Hk. cbn.
      by rewrite truthy_str_true. }
    split.
    + unfold find_existing, dictionary_translation. rewrite Hd, Hk. cbn.
      by rewrite truthy_str_true.
    + rewrite E in Hrun. cbn in Hrun. by rewrite truthy_str_true in Hrun.
  - intros approved rest existing Hf Hq Ha Ht.
    assert (E : existing_in TEMPORARY_DICTIONARIES s key (Py.lower (Py.strip st))
                  (normalize sl) (normalize tl)
                = existing).
    { unfold existing_in. rewrite Hf, Hq, Ha. reflexivity. }
    rewrite E, Ht in Hrun. exact Hrun.
  - intros existing. repeat split; vm_compute; reflexivity.
Qed.

(** C4.  A request passes validation, the bucket of its pair (if there
    is one) has no entry for its source text, and no record of the store
    with the same source text and languages is validated.  Then the
    contribution is accepted: status 201, and the store afterwards is
    the one with the three writes, the new record being in the primary
    collection.  Nothing is asked about pending records, so the store
    may hold an identical pending contribution. *)
Theorem pending_duplicate_accepted (data : dict) (st tt sl tl se te id ts : string)
    (s : Store) :
  str_field data "source_text" = Some st ->
  str_field data "target_text" = Some tt ->
  str_field data "source_language" = Some sl ->
  str_field data "target_language" = Some tl ->
  str_field data "source_example" = Some se ->
  str_field data "target_example" = Some te ->
  valid_contribution (Py.lower (Py.strip st)) (Py.strip tt) (normalize sl) (normalize tl) ->
  let key := pair_key (normalize sl) (normalize tl) in
  let record :=
    contribution_record id (Py.lower (Py.strip st)) (Py.strip tt) (normalize sl)
      (normalize tl) (Py.strip se) (Py.strip te) ts in
  (forall dictionary : odict string,
     od_get TEMPORARY_DICTIONARIES key = Some dictionary ->
     od_get dictionary (Py.lower (Py.strip st)) = None) ->
  (forall (id' : string) (d : dict),
     contributions s !! id' = Some d ->
     matches (validated_filters (Py.lower (Py.strip st)) (normalize sl) (normalize tl)) d
     = false) ->
  run extractOne (contribute TEMPORARY_DICTIONARIES data id ts) s
  = (inr (success_response id key), saved s key id (normalize sl) (normalize tl) ts record)
  /\ (success_response id key).2 = 201
  /\ contributions (saved s key id (normalize sl) (normalize tl) ts record) !! id
     = Some record
  /\ record !! "status" = Some (VStr "pending").
Proof.
  intros H1 H2 H3 H4 H5 H6 Hv key record Habs Hnone.
  pose proof (run_contribute data st tt sl tl se te id ts s H1 H2 H3 H4 H5 H6 Hv) as Hrun.
  cbn zeta in Hrun. fold key in Hrun.
  assert (E : existing_in TEMPORARY_DICTIONARIES s key (Py.lower (Py.strip st))
                (normalize sl) (normalize tl)
              = VNone).
  { unfold existing_in. rewrite (dictionary_translation_absent _ _ Habs). cbn.
    by rewrite (query_none _ _ _ Hnone). }
  rewrite E in Hrun. cbn in Hrun.
  split; [exact Hrun|]. split; [reflexivity|].
  split; [unfold saved; cbn [contributions]; apply lookup_insert_eq|].
  vm_compute. reflexivity.
Qed.

(** C10.  A request passes validation and the bucket of its pair maps
    its source text to the empty string.  Then the duplicate check goes
    on to ask the store for a validated contribution, and when that
    query finds none the contribution is accepted: status 201 and the
    record written, although the source text is a key of the bucket. *)
Theorem empty_translation_not_duplicate (data : dict) (st tt sl tl se te id ts : string)
    (dictionary : odict string) (s : Store) :
  str_field data "source_text" = Some st ->
  str_field data "target_text" = Some tt ->
  str_field data "source_language" = Some sl ->
  str_field data "target_language" = Some tl ->
  str_field data "source_example" = Some se ->
  str_field data "target_example" = Some te ->
  valid_contribution (Py.lower (Py.strip st)) (Py.strip tt) (normalize sl) (normalize tl) ->
  let key := pair_key (normalize sl) (normalize tl) in
  let record :=
    contribution_record id (Py.lower (Py.strip st)) (Py.strip tt) (normalize sl)
      (normalize tl) (Py.strip se) (Py.strip te) ts in
  let filters := validated_filters (Py.lower (Py.strip st)) (normalize sl) (normalize tl) in
  od_get TEMPORARY_DICTIONARIES key = Some dictionary ->
  od_get dictionary (Py.lower (Py.strip st)) = Some "" ->
  (exists k : list dict -> prog value,
     find_existing TEMPORARY_DICTIONARIES key (Py.lower (Py.strip st))
       (normalize sl) (normalize tl)
     = Call (WhereContributions filters 1) k)
  /\ (query (contributions s) filters 1 = [] ->
      run extractOne (contribute TEMPORARY_DICTIONARIES data id ts) s
      = (inr (success_response id key),
         saved s key id (normalize sl) (normalize tl) ts record)
      /\ (success_response id key).2 = 201
      /\ contributions (saved s key id (normalize sl) (normalize tl) ts record) !! id
         = Some record).
Proof.
  intros H1 H2 H3 H4 H5 H6 Hv key record filters Hd Hk.
  split.
  - unfold find_existing, dictionary_translation. rewrite Hd, Hk. cbn. eauto.
  - intros Hq.
    pose proof (run_contribute data st tt sl tl se te id ts s H1 H2 H3 H4 H5 H6 Hv) as Hrun.
    cbn zeta in Hrun. fold key in Hrun.
    assert (E : existing_in TEMPORARY_DICTIONARIES s key (Py.lower (Py.strip st))
                  (normalize sl) (normalize tl)
                = VStr "").
    { unfold existing_in, dictionary_translation. rewrite Hd, Hk. cbn.
      fold filters. by rewrite Hq. }
    rewrite E in Hrun. cbn in Hrun.
    split; [exact Hrun|]. split; [reflexivity|].
    unfold saved. cbn [contributions]. apply lookup_insert_eq.
Qed.
End Properties.

(** ** Requests in flight together *)

(** Sequential execution is stepping to the end. *)
Lemma run_step_thread (extractOne : string -> list string -> option (string * Z))
    {A : Type} (p : prog A) (s : Store) :
  run extractOne p s
  = run extractOne (step_thread extractOne p s).1 (step_thread extractOne p s).2.
Proof. destruct p; reflexivity. Qed.

(** Served one after the other, the two sample contributions are both
    accepted and the aggregate of the pair counts two. *)
Example first_two_in_turn :
  let out := interleave (Sample.scoring 0) Sample.in_turn Sample.first_two empty_store in
  out.1 = [Ret (success_response "id-1" "en-fr"); Ret (success_response "id-2" "en-fr")]
  /\ size (language_pairs out.2) = 1%nat
  /\ aggregate_counter out.2 "en-fr" "total_contributions" = 2.
Proof. vm_compute. repeat split. Qed.

(** The first contribution to a pair, call by call: after its fifth call
    the aggregate exists with its three counters at 0, after the sixth
    they are 1, 1 and 0. *)
Example first_contribution_creates_then_increments :
  let created :=
    (interleave (Sample.scoring 0) [0; 0; 0; 0; 0]%nat Sample.first_two empty_store).2 in
  let incremented :=
    (interleave (Sample.scoring 0) [0; 0; 0; 0; 0; 0]%nat Sample.first_two empty_store).2 in
  language_pairs empty_store !! "en-fr" = None
  /\ is_Some (language_pairs created !! "en-fr")
  /\ aggregate_counter created "en-fr" "total_contributions" = 0
  /\ aggregate_counter created "en-fr" "pending_contributions" = 0
  /\ aggregate_counter created "en-fr" "validated_contributions" = 0
  /\ aggregate_counter incremented "en-fr" "total_contributions" = 1
  /\ aggregate_counter incremented "en-fr" "pending_contributions" = 1
  /\ aggregate_counter incremented "en-fr" "validated_contributions" = 0.
Proof. vm_compute. repeat split. eauto. Qed.

(** With the same interleaving on a store where the aggregate of the
    pair exists (and counts one), no count is lost: the increments are
    single calls. *)
Example racing_on_existing_aggregate :
  let out := interleave (Sample.scoring 0) Sample.racing Sample.first_two Sample.pending_cat in
  out.1 = [Ret (success_response "id-1" "en-fr"); Ret (success_response "id-2" "en-fr")]
  /\ aggregate_counter Sample.pending_cat "en-fr" "total_contributions" = 1
  /\ aggregate_counter out.2 "en-fr" "total_contributions" = 3
  /\ aggregate_counter out.2 "en-fr" "pending_contributions" = 3.
Proof. vm_compute. repeat split. Qed.

(** C7.  Two first contributions to a pair without an aggregate, with
    the calls of the two requests interleaved so that both read the
    aggregate as missing before either creates it: both are accepted
    and both records are written, there is one aggregate for the pair,
    and its total counter is 1, not 2.  The second creation writes the
    counters back to 0 after the first increment. *)
Theorem racing_contributions_lose_a_count :
  let out := interleave (Sample.scoring 0) Sample.racing Sample.first_two empty_store in
  out.1 = [Ret (success_response "id-1" "en-fr"); Ret (success_response "id-2" "en-fr")]
  /\ size (contributions out.2) = 2%nat
  /\ size (language_pairs out.2) = 1%nat
  /\ aggregate_counter out.2 "en-fr" "total_contributions" = 1
  /\ aggregate_counter out.2 "en-fr" "total_contributions" <> 2.
Proof. vm_compute. repeat split. discriminate. Qed.

(** ** The claims at sample requests *)

Lemma sample_pending_cat :
  run (Sample.scoring 0)
    (contribute Sample.dictionaries (Sample.contribution "Cat " "chat" "EN" "fr") "id-0" "t0")
    empty_store
  = (inr (success_response "id-0" "en-fr"), Sample.pending_cat).
Proof. vm_compute. reflexivity. Qed.

(** C3, as the claim has it, fails: "blank" is a key of the bucket of
    en-fr, and a contribution of "blank" is not answered as a
    duplicate. *)
Lemma duplicate_on_key_counterexample :
  exists dictionary : odict string,
    od_get Sample.dictionaries (pair_key "en" "fr") = Some dictionary
    /\ is_Some (od_get dictionary "blank")
    /\ ~ (exists existing : value,
            run (Sample.scoring 0)
              (contribute Sample.dictionaries (Sample.contribution "blank" "vide" "en" "fr")
                 "id-1" "t1") empty_store
            = (inr (duplicate_response existing), empty_store)).
Proof.
  eexists. split; [reflexivity|]. split; [vm_compute; eauto|].
  intros [existing H].
  apply (f_equal (fun o => match o.1 with inr r => r.2 | inl _ => 0 end)) in H.
  vm_compute in H. discriminate.
Qed.

Ltac sample_facts :=
  first [ reflexivity
        | vm_compute; reflexivity
        | repeat split; discriminate ].

(** C1 at (EN, " fr", "Hello "). *)
Lemma exact_tier_first_witness :
  translate Sample.dictionaries (Sample.resolve "EN" " fr" "Hello ")
  = Ret (exact_response "en" "fr" "hello" "bonjour").
Proof.
  destruct (exact_tier_first Sample.dictionaries (Sample.scoring 80)
              (Sample.resolve "EN" " fr" "Hello ") "EN" " fr" "Hello "
              [("hello", "bonjour"); ("blank", "")] "bonjour") as [H _];
    [sample_facts..|exact H].
Defined.

(** C2 at "helo", scored 70 and scored 69 against "hello". *)
Lemma fuzzy_threshold_witness :
  run (Sample.scoring 70) (translate Sample.dictionaries (Sample.resolve "en" "fr" "helo"))
    empty_store
  = (inr (fuzzy_response "en" "fr" "helo" "bonjour" 70 "hello"), empty_store)
  /\ run (Sample.scoring 69) (translate Sample.dictionaries (Sample.resolve "en" "fr" "helo"))
       empty_store
     = run (Sample.scoring 69)
         (try_except (pending_tier "en" "fr" "helo") internal_error) empty_store.
Proof.
  split.
  - destruct (fuzzy_threshold Sample.dictionaries (Sample.scoring 70)
                (Sample.resolve "en" "fr" "helo") "en" "fr" "helo"
                [("hello", "bonjour"); ("blank", "")] "hello" 70 "bonjour" empty_store)
      as (_ & H & _); [sample_facts..|].
    apply H. lia.
  - destruct (fuzzy_threshold Sample.dictionaries (Sample.scoring 69)
                (Sample.resolve "en" "fr" "helo") "en" "fr" "helo"
                [("hello", "bonjour"); ("blank", "")] "hello" 69 "bonjour" empty_store)
      as (_ & _ & H); [sample_facts..|].
    apply H. lia.
Defined.

(** C5 at (en, de, hello). *)
Lemma unsupported_pair_witness :
  translate Sample.dictionaries (Sample.resolve "en" "de" "hello")
  = Ret (not_supported_response Sample.dictionaries "en" "de")
  /\ (not_supported_response Sample.dictionaries "en" "de").1 !! "supportedPairs"
     = Some (VList ["en-fr"]).
Proof.
  destruct (unsupported_pair Sample.dictionaries (Sample.scoring 80)
              (Sample.resolve "en" "de" "hello") "en" "de" "hello")
    as (H1 & _ & _ & H2 & _); [sample_facts..|].
  split; [exact H1 | exact H2].
Defined.

(** C9 at (EN, " fr", "Hello ") and its normal form, with the ASCII
    methods. *)
Lemma normalization_invariance_witness :
  run (Sample.scoring 80)
    (Text.translate Py.lower Py.strip Sample.dictionaries (Sample.resolve "en" "fr" "hello"))
    Sample.pending_cat
  = run (Sample.scoring 80)
      (Text.translate Py.lower Py.strip Sample.dictionaries
         (Sample.resolve "EN" " fr" "Hello "))
      Sample.pending_cat.
Proof.
  destruct (normalization_invariance Sample.dictionaries (Sample.scoring 80)
              Py.lower Py.strip
              (Sample.resolve "EN" " fr" "Hello ") (Sample.resolve "en" "fr" "hello")
              "EN" " fr" "Hello " Sample.pending_cat) as [_ H];
    [exact normalize_idem | sample_facts.. | exact H].
Defined.

(** C3 as amended, at "Hello" (in the table) and at "cat" (validated in
    the store). *)
Lemma duplicate_rejected_witness :
  run (Sample.scoring 0)
    (contribute Sample.dictionaries (Sample.contribution "Hello" "salut" "en" "fr")
       "id-1" "t1") empty_store
  = (inr (duplicate_response (VStr "bonjour")), empty_store)
  /\ run (Sample.scoring 0)
       (contribute Sample.dictionaries (Sample.contribution "cat" "minou" "en" "fr")
          "id-1" "t1") Sample.validated_cat
     = (inr (duplicate_response (VStr "chat")), Sample.validated_cat).
Proof.
  split.
  - destruct (duplicate_rejected Sample.dictionaries (Sample.scoring 0)
                (Sample.contribution "Hello" "salut" "en" "fr")
                "Hello" "salut" "en" "fr" "" "" "id-1" "t1" empty_store) as (H & _ & _);
      [sample_facts..|].
    apply (H [("hello", "bonjour"); ("blank", "")] "bonjour"); sample_facts.
  - destruct (duplicate_rejected Sample.dictionaries (Sample.scoring 0)
                (Sample.contribution "cat" "minou" "en" "fr")
                "cat" "minou" "en" "fr" "" "" "id-1" "t1" Sample.validated_cat)
      as (_ & H & _); [sample_facts..|].
    apply (H (<["status" := VStr "validated"]>
                (contribution_record "id-9" "cat" "chat" "en" "fr" "" "" "t9")) []);
      sample_facts.
Defined.

(** C4 at a second contribution of cat to chat while the first one is
    pending. *)
Lemma pending_duplicate_accepted_witness :
  contributions Sample.pending_cat !! "id-0"
  = Some (contribution_record "id-0" "cat" "chat" "en" "fr" "" "" "t0")
  /\ run (Sample.scoring 0)
       (contribute Sample.dictionaries (Sample.contribution "cat" "chat" "en" "fr")
          "id-1" "t1") Sample.pending_cat
     = (inr (success_response "id-1" "en-fr"),
        saved Sample.pending_cat "en-fr" "id-1" "en" "fr" "t1"
          (contribution_record "id-1" "cat" "chat" "en" "fr" "" "" "t1")).
Proof.
  split; [vm_compute; reflexivity|].
  destruct (pending_duplicate_accepted Sample.dictionaries (Sample.scoring 0)
              (Sample.contribution "cat" "chat" "en" "fr")
              "cat" "chat" "en" "fr" "" "" "id-1" "t1" Sample.pending_cat) as [H _];
    [sample_facts..| | |exact H].
  - intros dictionary [= <-]. reflexivity.
  - intros id' d Hd. unfold Sample.pending_cat, saved, empty_store in Hd.
    cbn [contributions] in Hd.
    apply lookup_insert_Some in Hd as [[_ <-]|[_ Hd]]; [vm_compute; reflexivity|].
    by rewrite lookup_empty in Hd.
Defined.

(** C10 at a contribution of "blank", whose entry in the table is the
    empty string. *)
Lemma empty_translation_not_duplicate_witness :
  od_get [("hello", "bonjour"); ("blank", "")] "blank" = Some ""
  /\ run (Sample.scoring 0)
       (contribute Sample.dictionaries (Sample.contribution "blank" "vide" "en" "fr")
          "id-1" "t1") empty_store
     = (inr (success_response "id-1" "en-fr"),
        saved empty_store "en-fr" "id-1" "en" "fr" "t1"
          (contribution_record "id-1" "blank" "vide" "en" "fr" "" "" "t1")).
Proof.
  split; [reflexivity|].
  destruct (empty_translation_not_duplicate Sample.dictionaries (Sample.scoring 0)
              (Sample.contribution "blank" "vide" "en" "fr")
              "blank" "vide" "en" "fr" "" "" "id-1" "t1"
              [("hello", "bonjour"); ("blank", "")] empty_store) as [_ H];
    [sample_facts..|].
  destruct H as [H _]; [vm_compute; reflexivity | exact H].
Defined.

Lemma in_sync_empty : in_sync empty_store.
Proof.
  intros id c. cbn. rewrite lookup_empty. split; [discriminate|].
  intros [key H]. by rewrite lookup_empty in H.
Qed.

(** C8 at the first contribution to an empty store. *)
Lemma copy_in_sync_witness :
  (exists (key : string) (c : dict),
     contributions Sample.pending_cat !! "id-0" = Some c
     /\ translations Sample.pending_cat !! (key, "id-0") = Some c)
  /\ in_sync Sample.pending_cat.
Proof.
  destruct (copy_in_sync Sample.dictionaries (Sample.scoring 0)
              (Sample.contribution "Cat " "chat" "EN" "fr") "id-0" "t0"
              empty_store Sample.pending_cat (success_response "id-0" "en-fr")
              sample_pending_cat) as [H1 H2].
  split.
  - destruct (H1 eq_refl) as (key & c & _ & _ & Hc & Ht & _). eauto.
  - apply H2; [reflexivity | apply lookup_empty | apply in_sync_empty].
Defined.



(** * Further properties of the handlers *)

Section MoreProperties.

Variable TEMPORARY_DICTIONARIES : odict (odict string).
Variable extractOne : string -> list string -> option (string * Z).

(** ** Programs that only read *)

Lemma reads_only_bind {A B : Type} (p : prog A) (f : A -> prog B) :
  reads_only p -> (forall a, reads_only (f a)) -> reads_only (bind p f).
Proof.
  intros Hp Hf. induction p as [a|e|X c k IH]; cbn in *; [apply Hf | exact I |].
  destruct Hp as [Hc Hk]. split; [exact Hc | intros x; apply IH, Hk].
Qed.

Lemma reads_only_try {A : Type} (p : prog A) (h : exn -> prog A) :
  reads_only p -> (forall e, reads_only (h e)) -> reads_only (try_except p h).
Proof.
  intros Hp Hh. induction p as [a|e|X c k IH]; cbn in *; [exact I | apply Hh |].
  destruct Hp as [Hc Hk]. split; [exact Hc | intros x; apply IH, Hk].
Qed.

Lemma exec_read {X : Type} (c : call X) (s : Store) :
  is_read c = true -> (exec extractOne c s).2 = s.
Proof. destruct c; cbn; intros H; try reflexivity; discriminate. Qed.

Lemma reads_only_run {A : Type} (p : prog A) (s : Store) :
  reads_only p -> (run extractOne p s).2 = s.
Proof.
  revert s. induction p as [a|e|X c k IH]; intros s Hp; cbn in *; [reflexivity..|].
  destruct Hp as [Hc Hk]. rewrite IH by apply Hk. by apply exec_read.
Qed.

Lemma get_str_reads_only (data : dict) (k attr : string) : reads_only (get_str data k attr).
Proof. unfold get_str. destruct (data !! k) as [[]|]; exact I. Qed.

Lemma pending_tier_reads_only (sl tl text : string) : reads_only (pending_tier sl tl text).
Proof.
  unfold pending_tier. cbn. split; [reflexivity|]. intros _.
  split; [reflexivity|]. intros [|d rest]; cbn; [exact I|].
  unfold getitem. destruct (d !! "target_text"); exact I.
Qed.

Lemma translate_body_reads_only (sl tl text : string) :
  reads_only (translate_body TEMPORARY_DICTIONARIES sl tl text).
Proof.
  unfold translate_body.
  destruct (negb (Py.truthy_str text)); [exact I|].
  destruct (negb (Py.truthy_str sl) || negb (Py.truthy_str tl)); [exact I|].
  cbn zeta. destruct (od_get TEMPORARY_DICTIONARIES _) as [dictionary|]; [|exact I].
  destruct (od_get dictionary text); [exact I|].
  destruct (od_nonempty dictionary); [|apply pending_tier_reads_only].
  unfold fuzzy_tier. cbn. split; [reflexivity|].
  intros [[best_match score]|]; [|exact I].
  destruct (70 <=? score); [|apply pending_tier_reads_only].
  unfold od_getitem. destruct (od_get dictionary best_match); exact I.
Qed.

Lemma translate_reads_only (data : dict) : reads_only (translate TEMPORARY_DICTIONARIES data).
Proof.
  unfold translate. apply reads_only_try; [|intros e; exact I].
  change (mbind ?f ?p) with (bind p f).
  apply reads_only_bind; [apply get_str_reads_only|]. intros sl.
  change (mbind ?f ?p) with (bind p f).
  apply reads_only_bind; [apply get_str_reads_only|]. intros tl.
  change (mbind ?f ?p) with (bind p f).
  apply reads_only_bind; [apply get_str_reads_only|]. intros text.
  apply translate_body_reads_only.
Qed.

(** ** The answers of [translate] *)

(** The answer of the pending tier, read off the store. *)
Lemma run_pending_tier_answer (sl tl text : string) (s : Store) :
  run extractOne (try_except (pending_tier sl tl text) internal_error) s
  = (inr match query (contributions s) (pending_filters text sl tl) 1 with
         | [] => no_match_response sl tl text
         | d :: _ =>
             match d !! "target_text" with
             | Some v => pending_response sl tl text v
             | None => error_response (KeyError (PyExn.repr "target_text"))
             end
         end, s).
Proof.
  unfold pending_tier. cbn. fold (pending_filters text sl tl).
  destruct (query _ _ _) as [|d rest]; cbn; [reflexivity|].
  unfold getitem. destruct (d !! "target_text"); reflexivity.
Qed.

Lemma translate_reaches_pending (data : dict) (sl tl text : string) (s : Store) :
  str_field data "sourceLang" = Some sl ->
  str_field data "targetLang" = Some tl ->
  str_field data "text" = Some text ->
  valid_resolution (normalize sl) (normalize tl) (normalize text) ->
  reaches_pending TEMPORARY_DICTIONARIES extractOne
    (normalize sl) (normalize tl) (normalize text) ->
  run extractOne (translate TEMPORARY_DICTIONARIES data) s
  = run extractOne
      (try_except (pending_tier (normalize sl) (normalize tl) (normalize text))
         internal_error) s.
Proof.
  intros Hs Ht Hx Hv (dictionary & Hd & Hk & Hcase).
  rewrite (translate_valid _ _ _ _ _ Hs Ht Hx Hv), Hd, Hk.
  destruct Hcase as [->|(best_match & score & -> & Hm & Hlt)]; [reflexivity|].
  unfold fuzzy_tier. cbn. rewrite Hm. cbn.
  destruct (Z.leb_spec 70 score); [lia | reflexivity].
Qed.

Lemma pending_answer_outcome (sl tl text : string) (s : Store) :
  translate_outcome TEMPORARY_DICTIONARIES extractOne s sl tl text
    match query (contributions s) (pending_filters text sl tl) 1 with
    | [] => no_match_response sl tl text
    | d :: _ =>
        match d !! "target_text" with
        | Some v => pending_response sl tl text v
        | None => error_response (KeyError (PyExn.repr "target_text"))
        end
    end.
Proof.
  unfold translate_outcome.
  destruct (query _ _ _) as [|d rest] eqn:Eq; [tauto|].
  destruct (d !! "target_text") as [v|] eqn:Ev; [|eauto 10].
  do 6 right. left. eauto 10.
Qed.

Lemma run_translate_body_outcome (sl tl text : string) (s : Store) :
  exists r : response,
    run extractOne (try_except (translate_body TEMPORARY_DICTIONARIES sl tl text)
                      internal_error) s = (inr r, s)
    /\ translate_outcome TEMPORARY_DICTIONARIES extractOne s sl tl text r.
Proof.
  assert (Hp : exists r : response,
             run extractOne (try_except (pending_tier sl tl text) internal_error) s
             = (inr r, s)
             /\ translate_outcome TEMPORARY_DICTIONARIES extractOne s sl tl text r).
  { eexists. split; [apply run_pending_tier_answer | apply pending_answer_outcome]. }
  unfold translate_body.
  destruct (negb (Py.truthy_str text)).
  { eexists. split; [reflexivity|]. unfold translate_outcome. tauto. }
  destruct (negb (Py.truthy_str sl) || negb (Py.truthy_str tl)).
  { eexists. split; [reflexivity|]. unfold translate_outcome. tauto. }
  cbn zeta. fold (pair_key sl tl).
  destruct (od_get TEMPORARY_DICTIONARIES (pair_key sl tl)) as [dictionary|] eqn:Ed.
  2:{ eexists. split; [reflexivity|]. unfold translate_outcome. tauto. }
  destruct (od_get dictionary text) as [translation|] eqn:Ek.
  { eexists. split; [reflexivity|]. unfold translate_outcome.
    do 4 right. left. eauto 10. }
  destruct (od_nonempty dictionary); [|exact Hp].
  unfold fuzzy_tier. cbn.
  destruct (extractOne text (od_keys dictionary)) as [[best_match score]|] eqn:Em.
  2:{ eexists. split; [reflexivity|]. unfold translate_outcome.
      right. right. left. eexists. reflexivity. }
  destruct (Z.leb_spec 70 score) as [Hge|Hlt]; [|exact Hp].
  unfold od_getitem. destruct (od_get dictionary best_match) as [translation|] eqn:Eb.
  - eexists. split; [reflexivity|]. unfold translate_outcome.
    do 5 right. left. exists dictionary, translation, best_match, score. eauto 10.
  - eexists. split; [reflexivity|]. unfold translate_outcome.
    right. right. left. eexists. reflexivity.
Qed.

Lemma translate_outcome_status (s : Store) (sl tl text : string) (r : response) :
  translate_outcome TEMPORARY_DICTIONARIES extractOne s sl tl text r -> r.2 ∈ translate_statuses.
Proof.
  unfold translate_outcome, translate_statuses.
  intros [->|[->|[[e ->]|[[-> _]|[Hex|[Hfz|[(d & rest & v & _ & _ & ->)| ->]]]]]]];
    [| | | |destruct Hex as (? & ? & _ & _ & ->)
     |destruct Hfz as (? & ? & ? & ? & _ & _ & _ & _ & _ & ->)| |];
    cbn; set_solver.
Qed.

Lemma run_translate_status (data : dict) (s : Store) :
  exists r : response,
    run extractOne (translate TEMPORARY_DICTIONARIES data) s = (inr r, s)
    /\ r.2 ∈ translate_statuses.
Proof.
  unfold translate. cbn [mbind prog_bind].
  destruct (get_str_cases data "sourceLang" "lower") as [[sl ->]|[e ->]];
    [|eexists; split; [reflexivity | cbn; unfold translate_statuses; set_solver]].
  destruct (get_str_cases data "targetLang" "lower") as [[tl ->]|[e ->]];
    [|eexists; split; [reflexivity | cbn; unfold translate_statuses; set_solver]].
  destruct (get_str_cases data "text" "lower") as [[text ->]|[e ->]];
    [|eexists; split; [reflexivity | cbn; unfold translate_statuses; set_solver]].
  cbn [bind].
  destruct (run_translate_body_outcome (Py.strip (Py.lower sl)) (Py.strip (Py.lower tl))
              (Py.strip (Py.lower text)) s) as (r & Hr & Ho).
  exists r. split; [exact Hr|]. eapply translate_outcome_status, Ho.
Qed.

(** X1.  Whatever the request and the store, [translate] answers (no
    exception escapes), its status is 200, 400, 404 or 500, every call
    it can make is a read, and the store is left as it is. *)
Theorem translate_answers_without_writing (data : dict) (s : Store) :
  reads_only (translate TEMPORARY_DICTIONARIES data)
  /\ exists r : response,
       run extractOne (translate TEMPORARY_DICTIONARIES data) s = (inr r, s)
       /\ r.2 ∈ translate_statuses.
Proof. split; [apply translate_reads_only | apply run_translate_status]. Qed.

(** ** Blank input *)

Lemma lstrip_blank (s : string) : Py.lstrip s = "" <-> blank s = true.
Proof.
  induction s as [|c s IH]; cbn; [done|].
  destruct (Py.is_space c); cbn; [exact IH|]. split; discriminate.
Qed.

Lemma rstrip_empty (s : string) : Py.trimmed_left s -> Py.rstrip s = "" -> s = "".
Proof.
  destruct s as [|c s]; cbn; [done|]. intros ->.
  destruct (Py.rstrip s); discriminate.
Qed.

Lemma blank_lower (s : string) : blank (Py.lower s) = blank s.
Proof.
  induction s as [|c s IH]; cbn; [reflexivity|].
  by rewrite PyFacts.is_space_lower_char, IH.
Qed.

Lemma strip_blank (s : string) : Py.strip s = "" <-> blank s = true.
Proof.
  unfold Py.strip. rewrite <- lstrip_blank. split.
  - apply rstrip_empty, PyFacts.lstrip_trimmed_left.
  - by intros ->.
Qed.

Lemma normalize_blank (s : string) : normalize s = "" <-> blank s = true.
Proof. unfold normalize. by rewrite strip_blank, blank_lower. Qed.

Lemma normalize_source_blank (s : string) : normalize_source s = "" <-> blank s = true.
Proof.
  unfold normalize_source. rewrite PyFacts.lower_strip.
  fold (normalize s). apply normalize_blank.
Qed.

(** X2.  When the three fields of the request are strings (or missing)
    and the text is missing, empty or made of white space only,
    [translate] returns status 400 with the error "No text provided for
    translation", whatever the languages are, and makes no call to the
    matcher or the store. *)
Theorem translate_rejects_blank_text (data : dict) (sl tl text : string) :
  str_field data "sourceLang" = Some sl ->
  str_field data "targetLang" = Some tl ->
  str_field data "text" = Some text ->
  blank text = true ->
  translate TEMPORARY_DICTIONARIES data
  = Ret (dict_of [("error", VStr "No text provided for translation")], 400).
Proof.
  intros Hs Ht Hx Hb. rewrite (translate_fields _ _ _ _ _ Hs Ht Hx).
  unfold translate_body. apply normalize_blank in Hb. by rewrite Hb.
Qed.

(** X3.  [str.lower] and [str.strip] are any two functions on text.
    When the three fields are strings (or missing), the text lower-cased
    and trimmed is not empty and the source or the target language
    lower-cased and trimmed is empty, [translate] returns status 400
    with the error "Source or target language not specified" and makes
    no call. *)
Theorem translate_rejects_blank_language (lower strip : string -> string) (data : dict)
    (sl tl text : string) :
  str_field data "sourceLang" = Some sl ->
  str_field data "targetLang" = Some tl ->
  str_field data "text" = Some text ->
  strip (lower text) <> "" ->
  strip (lower sl) = "" \/ strip (lower tl) = "" ->
  Text.translate lower strip TEMPORARY_DICTIONARIES data
  = Ret (dict_of [("error", VStr "Source or target language not specified")], 400).
Proof.
  intros Hs Ht Hx Hne Hl.
  rewrite (text_translate_fields TEMPORARY_DICTIONARIES _ _ _ _ _ _ Hs Ht Hx).
  unfold translate_body.
  rewrite (truthy_str_true _ Hne). cbn [negb].
  destruct Hl as [Hl|Hl]; rewrite Hl; cbn; [reflexivity|].
  by destruct (negb (Py.truthy_str (strip (lower sl)))).
Qed.

(** X4.  When one of the fields sourceLang, targetLang and text is
    present and is not a string (a number, a boolean, null, a list),
    [translate] returns status 500 with the error "Internal server
    error": the method call on the field raises before any validation,
    and no call to the matcher or the store is made. *)
Theorem translate_non_string_field (data : dict) (k : string) :
  k ∈ ["sourceLang"; "targetLang"; "text"] ->
  str_field data k = None ->
  exists e : exn, translate TEMPORARY_DICTIONARIES data = Ret (error_response e).
Proof.
  intros Hk Hn.
  assert (Hraise : forall k', str_field data k' = None ->
                     exists e, get_str data k' "lower" = Raise e).
  { intros k'. unfold str_field, get_str. destruct (data !! k') as [[]|]; eauto; discriminate. }
  unfold translate. cbn [mbind prog_bind].
  destruct (get_str_cases data "sourceLang" "lower") as [[sl Es]|[e ->]];
    [|eexists; reflexivity].
  destruct (get_str_cases data "targetLang" "lower") as [[tl Et]|[e Et]];
    rewrite Es, Et; [|eexists; reflexivity].
  destruct (get_str_cases data "text" "lower") as [[text Ex]|[e Ex]];
    rewrite Ex; [|eexists; reflexivity].
  exfalso. destruct (Hraise k Hn) as [e He].
  repeat (apply elem_of_cons in Hk as [->|Hk]; [congruence|]).
  by apply elem_of_nil in Hk.
Qed.

(** X5.  When the request passes validation and the bucket of its pair
    exists and is empty, [translate] is the program of the pending tier:
    the matcher is not called (it is never given an empty list of
    candidates), so the answer is the same with every matcher. *)
Theorem translate_empty_bucket (data : dict) (sl tl text : string) :
  str_field data "sourceLang" = Some sl ->
  str_field data "targetLang" = Some tl ->
  str_field data "text" = Some text ->
  valid_resolution (normalize sl) (normalize tl) (normalize text) ->
  od_get TEMPORARY_DICTIONARIES (pair_key (normalize sl) (normalize tl)) = Some [] ->
  translate TEMPORARY_DICTIONARIES data
  = try_except (pending_tier (normalize sl) (normalize tl) (normalize text)) internal_error
  /\ (forall (matcher : string -> list string -> option (string * Z)) (s : Store),
        run matcher (translate TEMPORARY_DICTIONARIES data) s
        = run extractOne (translate TEMPORARY_DICTIONARIES data) s).
Proof.
  intros Hs Ht Hx Hv Hd.
  assert (E : translate TEMPORARY_DICTIONARIES data
              = try_except (pending_tier (normalize sl) (normalize tl) (normalize text))
                  internal_error).
  { rewrite (translate_valid _ _ _ _ _ Hs Ht Hx Hv), Hd. reflexivity. }
  split; [exact E|]. intros matcher s. rewrite E.
  unfold pending_tier. cbn.
  destruct (query _ _ _) as [|d rest]; cbn; [reflexivity|].
  unfold getitem. destruct (d !! "target_text"); reflexivity.
Qed.

(** ** The pending tier *)

Lemma query_some (c : gmap string dict) (filters : list (string * string)) (n : nat) :
  (exists (id : string) (d : dict), c !! id = Some d /\ matches filters d = true) ->
  exists (d : dict) (rest : list dict), query c filters (S n) = d :: rest.
Proof.
  intros (id & d & Hd & Hm). unfold query.
  assert (Hin : d ∈ List.filter (matches filters) (documents c)).
  { apply list_elem_of_In, filter_In. split; [|exact Hm].
    apply list_elem_of_In, documents_elem. eauto. }
  destruct (List.filter (matches filters) (documents c)) as [|d' l]; [|cbn; eauto].
  by apply elem_of_nil in Hin.
Qed.

Lemma matches_fields (a b c st : string) (d : dict) :
  matches [("source_text", a); ("source_language", b); ("target_language", c);
           ("status", st)] d = true
  <-> d !! "source_text" = Some (VStr a)
      /\ d !! "source_language" = Some (VStr b)
      /\ d !! "target_language" = Some (VStr c)
      /\ d !! "status" = Some (VStr st).
Proof.
  assert (F : forall k v, match d !! k with
                          | Some (VStr s) => String.eqb s v
                          | _ => false
                          end = true <-> d !! k = Some (VStr v)).
  { intros k v. destruct (d !! k) as [[| | |s|]|]; try (split; [discriminate | congruence]).
    rewrite String.eqb_eq. split; [by intros -> | by intros [= ->]]. }
  unfold matches. cbn. rewrite !andb_true_iff, !F. tauto.
Qed.

(** X6.  A request passes validation and gets to the pending tier; the
    store holds a contribution with the same source text and languages
    and status "pending", and every such contribution has the target
    text [v].  Then [translate] answers status 200 with matchType
    "pending", [v] as the translation and the note that the
    contribution awaits review. *)
Theorem translate_serves_pending (data : dict) (sl tl text : string) (v : value)
    (s : Store) :
  str_field data "sourceLang" = Some sl ->
  str_field data "targetLang" = Some tl ->
  str_field data "text" = Some text ->
  valid_resolution (normalize sl) (normalize tl) (normalize text) ->
  reaches_pending TEMPORARY_DICTIONARIES extractOne
    (normalize sl) (normalize tl) (normalize text) ->
  let filters := pending_filters (normalize text) (normalize sl) (normalize tl) in
  (exists (id : string) (d : dict),
     contributions s !! id = Some d /\ matches filters d = true) ->
  (forall (id : string) (d : dict),
     contributions s !! id = Some d -> matches filters d = true ->
     d !! "target_text" = Some v) ->
  let r := pending_response (normalize sl) (normalize tl) (normalize text) v in
  run extractOne (translate TEMPORARY_DICTIONARIES data) s = (inr r, s)
  /\ r.2 = 200
  /\ r.1 !! "matchType" = Some (VStr "pending")
  /\ r.1 !! "translation" = Some v
  /\ r.1 !! "note" = Some (VStr "This is a pending contribution awaiting review").
Proof.
  intros Hs Ht Hx Hv Hr filters Hex Hall r.
  split; [|repeat split; vm_compute; reflexivity].
  rewrite (translate_reaches_pending _ _ _ _ s Hs Ht Hx Hv Hr), run_pending_tier_answer.
  fold filters. destruct (query_some _ filters 0 Hex) as (d & rest & Hq). rewrite Hq.
  destruct (query_head _ _ _ _ _ Hq) as (Hm & id & Hid).
  by rewrite (Hall id d Hid Hm).
Qed.

(** X7.  A request passes validation and gets to the pending tier, and
    the store holds no pending contribution with the same source text
    and languages.  Then [translate] answers status 404 with matchType
    "none", a translation text that quotes the normalised text, and the
    suggestion to contribute. *)
Theorem translate_no_match (data : dict) (sl tl text : string) (s : Store) :
  str_field data "sourceLang" = Some sl ->
  str_field data "targetLang" = Some tl ->
  str_field data "text" = Some text ->
  valid_resolution (normalize sl) (normalize tl) (normalize text) ->
  reaches_pending TEMPORARY_DICTIONARIES extractOne
    (normalize sl) (normalize tl) (normalize text) ->
  (forall (id : string) (d : dict),
     contributions s !! id = Some d ->
     matches (pending_filters (normalize text) (normalize sl) (normalize tl)) d = false) ->
  let r := no_match_response (normalize sl) (normalize tl) (normalize text) in
  run extractOne (translate TEMPORARY_DICTIONARIES data) s = (inr r, s)
  /\ r.2 = 404
  /\ r.1 !! "matchType" = Some (VStr "none")
  /\ r.1 !! "translation"
     = Some (VStr ("No translation found for '" +:+ normalize text +:+ "'"))
  /\ r.1 !! "suggestion" = Some (VStr "Consider contributing a translation").
Proof.
  intros Hs Ht Hx Hv Hr Hnone r.
  split; [|repeat split; vm_compute; reflexivity].
  rewrite (translate_reaches_pending _ _ _ _ s Hs Ht Hx Hv Hr), run_pending_tier_answer.
  by rewrite (query_none _ _ _ Hnone).
Qed.

(** X8.  A request passes validation and gets to the pending tier; the
    store holds a matching pending contribution, and the matching
    pending contributions have no field target_text.  Then [translate]
    answers status 500: reading the field raises KeyError, which the
    handler reports as an internal error with the message
    "'target_text'". *)
Theorem translate_pending_without_target_text (data : dict) (sl tl text : string)
    (s : Store) :
  str_field data "sourceLang" = Some sl ->
  str_field data "targetLang" = Some tl ->
  str_field data "text" = Some text ->
  valid_resolution (normalize sl) (normalize tl) (normalize text) ->
  reaches_pending TEMPORARY_DICTIONARIES extractOne
    (normalize sl) (normalize tl) (normalize text) ->
  let filters := pending_filters (normalize text) (normalize sl) (normalize tl) in
  (exists (id : string) (d : dict),
     contributions s !! id = Some d /\ matches filters d = true) ->
  (forall (id : string) (d : dict),
     contributions s !! id = Some d -> matches filters d = true ->
     d !! "target_text" = None) ->
  let r := error_response (KeyError "'target_text'") in
  run extractOne (translate TEMPORARY_DICTIONARIES data) s = (inr r, s)
  /\ r.2 = 500
  /\ r.1 !! "error" = Some (VStr "Internal server error")
  /\ r.1 !! "message" = Some (VStr "'target_text'").
Proof.
  intros Hs Ht Hx Hv Hr filters Hex Hall r.
  split; [|repeat split; vm_compute; reflexivity].
  rewrite (translate_reaches_pending _ _ _ _ s Hs Ht Hx Hv Hr), run_pending_tier_answer.
  fold filters. destruct (query_some _ filters 0 Hex) as (d & rest & Hq). rewrite Hq.
  destruct (query_head _ _ _ _ _ Hq) as (Hm & id & Hid).
  by rewrite (Hall id d Hid Hm).
Qed.

(** X9.  When [translate] answers with matchType "pending", the
    translation it gives is the target text of a contribution that is in
    the store with status "pending" and with the normalised text and
    languages of the request as its source text and languages. *)
Theorem pending_answer_is_in_store (data : dict) (sl tl text : string) (s s' : Store)
    (r : response) :
  str_field data "sourceLang" = Some sl ->
  str_field data "targetLang" = Some tl ->
  str_field data "text" = Some text ->
  run extractOne (translate TEMPORARY_DICTIONARIES data) s = (inr r, s') ->
  r.1 !! "matchType" = Some (VStr "pending") ->
  exists (id : string) (d : dict),
    contributions s !! id = Some d
    /\ d !! "source_text" = Some (VStr (normalize text))
    /\ d !! "source_language" = Some (VStr (normalize sl))
    /\ d !! "target_language" = Some (VStr (normalize tl))
    /\ d !! "status" = Some (VStr "pending")
    /\ d !! "target_text" = r.1 !! "translation".
Proof.
  intros Hs Ht Hx Hrun Hmt.
  rewrite (translate_fields _ _ _ _ _ Hs Ht Hx) in Hrun.
  destruct (run_translate_body_outcome (normalize sl) (normalize tl) (normalize text) s)
    as (r0 & Hr0 & Ho).
  rewrite Hr0 in Hrun. injection Hrun as -> _.
  destruct Ho as [->|[->|[[e ->]|[[-> _]|[Hex|[Hfz|[Hp| ->]]]]]]];
    [| | | |destruct Hex as (? & ? & _ & _ & ->)
     |destruct Hfz as (? & ? & ? & ? & _ & _ & _ & _ & _ & ->)| |];
    try (vm_compute in Hmt; discriminate).
  destruct Hp as (d & rest & v & Hq & Hv & ->).
  destruct (query_head _ _ _ _ _ Hq) as (Hm & id & Hid).
  apply matches_fields in Hm as (H1 & H2 & H3 & H4).
  exists id, d. repeat split; assumption.
Qed.

(** ** The health check and the supported pairs *)

Lemma bucket_answer_has_no_pair_list (sl tl text : string) (dictionary : odict string)
    (s : Store) :
  od_get TEMPORARY_DICTIONARIES (pair_key sl tl) = Some dictionary ->
  exists r : response,
    run extractOne
      (try_except
         (match od_get dictionary text with
          | Some translation => Ret (exact_response sl tl text translation)
          | None =>
              if od_nonempty dictionary
              then fuzzy_tier dictionary sl tl text
              else pending_tier sl tl text
          end) internal_error) s = (inr r, s)
    /\ r.1 !! "supportedPairs" = None.
Proof.
  intros Hd.
  assert (Hp : exists r : response,
             run extractOne (try_except (pending_tier sl tl text) internal_error) s
             = (inr r, s) /\ r.1 !! "supportedPairs" = None).
  { eexists. split; [apply run_pending_tier_answer|].
    destruct (query _ _ _) as [|d rest]; [vm_compute; reflexivity|].
    destruct (d !! "target_text"); vm_compute; reflexivity. }
  destruct (od_get dictionary text) as [translation|].
  { eexists. split; [reflexivity | vm_compute; reflexivity]. }
  destruct (od_nonempty dictionary); [|exact Hp].
  unfold fuzzy_tier. cbn.
  destruct (extractOne text (od_keys dictionary)) as [[best_match score]|].
  2:{ eexists. split; [reflexivity | vm_compute; reflexivity]. }
  destruct (70 <=? score); [|exact Hp].
  unfold od_getitem. destruct (od_get dictionary best_match) as [translation|];
    (eexists; split; [reflexivity | vm_compute; reflexivity]).
Qed.

(** X10.  [health_check] answers status 200 with status "healthy" and
    the keys of the table as dictionary_languages; a request that
    passes validation is answered with a supportedPairs list (the
    not-supported answer) exactly when the key of its pair is not among
    those keys. *)
Theorem health_check_lists_supported_pairs (data : dict) (sl tl text : string)
    (s : Store) :
  str_field data "sourceLang" = Some sl ->
  str_field data "targetLang" = Some tl ->
  str_field data "text" = Some text ->
  valid_resolution (normalize sl) (normalize tl) (normalize text) ->
  exists h r : response,
    health_check TEMPORARY_DICTIONARIES = Ret h
    /\ h.2 = 200
    /\ h.1 !! "status" = Some (VStr "healthy")
    /\ h.1 !! "dictionary_languages" = Some (VList (od_keys TEMPORARY_DICTIONARIES))
    /\ run extractOne (translate TEMPORARY_DICTIONARIES data) s = (inr r, s)
    /\ (is_Some (r.1 !! "supportedPairs")
        <-> pair_key (normalize sl) (normalize tl) ∉ od_keys TEMPORARY_DICTIONARIES).
Proof.
  intros Hs Ht Hx Hv.
  pose proof (translate_valid TEMPORARY_DICTIONARIES _ _ _ _ Hs Ht Hx Hv) as E.
  destruct (od_get TEMPORARY_DICTIONARIES (pair_key (normalize sl) (normalize tl)))
    as [dictionary|] eqn:Ed.
  - destruct (bucket_answer_has_no_pair_list _ _ (normalize text) _ s Ed) as (r & Hr & Hn).
    eexists. exists r. split; [reflexivity|]. split; [reflexivity|].
    split; [vm_compute; reflexivity|]. split; [vm_compute; reflexivity|].
    split; [rewrite E; exact Hr|]. rewrite Hn, od_get_keys, Ed.
    split; [by intros [? ?] | intros Hc; exfalso; eauto].
  - eexists. eexists. split; [reflexivity|]. split; [reflexivity|].
    split; [vm_compute; reflexivity|]. split; [vm_compute; reflexivity|].
    split; [rewrite E; reflexivity|]. rewrite od_get_keys, Ed.
    split; [by intros _ [? ?] | intros _; vm_compute; eauto].
Qed.

(** ** Requests that [contribute] refuses *)

Lemma contribute_body_run (data : dict) (st tt sl tl se te id ts : string) (s : Store) :
  str_field data "source_text" = Some st ->
  str_field data "target_text" = Some tt ->
  str_field data "source_language" = Some sl ->
  str_field data "target_language" = Some tl ->
  str_field data "source_example" = Some se ->
  str_field data "target_example" = Some te ->
  run extractOne (contribute TEMPORARY_DICTIONARIES data id ts) s
  = run extractOne
      (try_except (contribute_body TEMPORARY_DICTIONARIES
                     (normalize_source st) (Py.strip tt) (normalize sl) (normalize tl)
                     (Py.strip se) (Py.strip te) id ts) internal_error) s.
Proof.
  intros H1 H2 H3 H4 H5 H6.
  by rewrite (contribute_fields _ _ _ _ _ _ _ _ _ _ H1 H2 H3 H4 H5 H6).
Qed.

(** X11.  When the six fields of the request are strings (or missing)
    and the source text or the target text is missing, empty or blank,
    [contribute] answers status 400 with the error "Source text and
    target text are required" and writes nothing. *)
Theorem contribute_rejects_blank_text (data : dict) (st tt sl tl se te id ts : string)
    (s : Store) :
  str_field data "source_text" = Some st ->
  str_field data "target_text" = Some tt ->
  str_field data "source_language" = Some sl ->
  str_field data "target_language" = Some tl ->
  str_field data "source_example" = Some se ->
  str_field data "target_example" = Some te ->
  blank st = true \/ blank tt = true ->
  run extractOne (contribute TEMPORARY_DICTIONARIES data id ts) s
  = (inr (dict_of [("error", VStr "Source text and target text are required")], 400), s).
Proof.
  intros H1 H2 H3 H4 H5 H6 Hb.
  rewrite (contribute_body_run _ _ _ _ _ _ _ id ts s H1 H2 H3 H4 H5 H6).
  unfold contribute_body.
  destruct Hb as [Hb|Hb].
  - apply normalize_source_blank in Hb. rewrite Hb. reflexivity.
  - apply strip_blank in Hb. rewrite Hb.
    by destruct (negb (Py.truthy_str (normalize_source st))).
Qed.

Lemma text_contribute_run (lower strip : string -> string) (data : dict)
    (st tt sl tl se te id ts : string) (s : Store) :
  str_field data "source_text" = Some st ->
  str_field data "target_text" = Some tt ->
  str_field data "source_language" = Some sl ->
  str_field data "target_language" = Some tl ->
  str_field data "source_example" = Some se ->
  str_field data "target_example" = Some te ->
  Text.contribute lower strip TEMPORARY_DICTIONARIES data id ts
  = Call InitializeFirebase (fun _ =>
      try_except (contribute_body TEMPORARY_DICTIONARIES
                    (lower (strip st)) (strip tt) (strip (lower sl)) (strip (lower tl))
                    (strip se) (strip te) id ts) internal_error).
Proof.
  intros H1 H2 H3 H4 H5 H6. unfold Text.contribute.
  rewrite (get_str_field _ _ _ _ H1), (get_str_field _ _ _ _ H2), (get_str_field _ _ _ _ H3),
    (get_str_field _ _ _ _ H4), (get_str_field _ _ _ _ H5), (get_str_field _ _ _ _ H6).
  reflexivity.
Qed.

(** X12.  [str.lower] and [str.strip] are any two functions on text.
    When the six fields are strings (or missing), the source text
    trimmed and lower-cased and the target text trimmed are not empty,
    and the source or the target language lower-cased and trimmed is
    empty, [contribute] answers status 400 with the error "Source
    language and target language are required" and writes nothing. *)
Theorem contribute_rejects_blank_language (lower strip : string -> string) (data : dict)
    (st tt sl tl se te id ts : string) (s : Store) :
  str_field data "source_text" = Some st ->
  str_field data "target_text" = Some tt ->
  str_field data "source_language" = Some sl ->
  str_field data "target_language" = Some tl ->
  str_field data "source_example" = Some se ->
  str_field data "target_example" = Some te ->
  lower (strip st) <> "" ->
  strip tt <> "" ->
  strip (lower sl) = "" \/ strip (lower tl) = "" ->
  run extractOne (Text.contribute lower strip TEMPORARY_DICTIONARIES data id ts) s
  = (inr (dict_of [("error", VStr "Source language and target language are required")],
          400), s).
Proof.
  intros H1 H2 H3 H4 H5 H6 N1 N2 Hb.
  rewrite (text_contribute_run _ _ _ _ _ _ _ _ _ id ts s H1 H2 H3 H4 H5 H6).
  cbn [run exec fst snd]. unfold contribute_body.
  rewrite (truthy_str_true _ N1), (truthy_str_true _ N2). cbn [negb orb].
  destruct Hb as [Hb|Hb]; rewrite Hb; [reflexivity|].
  by destruct (negb (Py.truthy_str (strip (lower sl)))).
Qed.

(** X13.  When one of the six fields of the request, the optional
    examples included, is present and is not a string, [contribute]
    answers status 500 with the error "Internal server error" and
    writes nothing. *)
Theorem contribute_non_string_field (data : dict) (k id ts : string) (s : Store) :
  k ∈ ["source_text"; "target_text"; "source_language"; "target_language";
       "source_example"; "target_example"] ->
  str_field data k = None ->
  exists e : exn,
    run extractOne (contribute TEMPORARY_DICTIONARIES data id ts) s
    = (inr (error_response e), s).
Proof.
  intros Hk Hn.
  assert (Hraise : forall k' attr e', str_field data k' = None ->
                     get_str data k' attr <> Ret e').
  { intros k' attr e'. unfold str_field, get_str.
    destruct (data !! k') as [[]|]; discriminate. }
  unfold contribute. cbn [mbind prog_bind perform bind try_except run exec fst snd].
  destruct (get_str_cases data "source_text" "strip") as [[st E1]|[e ->]];
    [|eexists; reflexivity].
  destruct (get_str_cases data "target_text" "strip") as [[tt E2]|[e E2]];
    rewrite E1, E2; [|eexists; reflexivity].
  destruct (get_str_cases data "source_language" "lower") as [[sl E3]|[e E3]];
    rewrite E3; [|eexists; reflexivity].
  destruct (get_str_cases data "target_language" "lower") as [[tl E4]|[e E4]];
    rewrite E4; [|eexists; reflexivity].
  destruct (get_str_cases data "source_example" "strip") as [[se E5]|[e E5]];
    rewrite E5; [|eexists; reflexivity].
  destruct (get_str_cases data "target_example" "strip") as [[te E6]|[e E6]];
    rewrite E6; [|eexists; reflexivity].
  exfalso.
  repeat (apply elem_of_cons in Hk as [->|Hk]; [by eapply Hraise|]).
  by apply elem_of_nil in Hk.
Qed.

(** ** Every request to [contribute] *)

Lemma run_contribute_body_status (st tt sl tl se te id ts : string) (s : Store) :
  exists (r : response) (s' : Store),
    run extractOne
      (try_except (contribute_body TEMPORARY_DICTIONARIES st tt sl tl se te id ts)
         internal_error) s = (inr r, s')
    /\ r.2 ∈ contribute_statuses
    /\ (r.2 <> 201 -> s' = s).
Proof.
  rewrite run_try_except. unfold contribute_body, contribute_statuses.
  destruct (negb (Py.truthy_str st) || negb (Py.truthy_str tt)).
  { do 2 eexists. split; [reflexivity|]. cbn. split; [set_solver | done]. }
  destruct (negb (Py.truthy_str sl) || negb (Py.truthy_str tl)).
  { do 2 eexists. split; [reflexivity|]. cbn. split; [set_solver | done]. }
  change (mbind ?f ?p) with (bind p f).
  rewrite run_bind, run_find_existing.
  destruct (truthy _).
  - do 2 eexists. split; [reflexivity|]. cbn. split; [set_solver | done].
  - rewrite run_save_contribution. do 2 eexists. split; [reflexivity|].
    cbn. split; [set_solver | done].
Qed.

Lemma run_contribute_status (data : dict) (id ts : string) (s : Store) :
  exists (r : response) (s' : Store),
    run extractOne (contribute TEMPORARY_DICTIONARIES data id ts) s = (inr r, s')
    /\ r.2 ∈ contribute_statuses
    /\ (r.2 <> 201 -> s' = s).
Proof.
  assert (Herr : forall e : exn,
             exists (r : response) (s' : Store),
               (inr (A := exn) (error_response e), s) = (inr r, s')
               /\ r.2 ∈ contribute_statuses /\ (r.2 <> 201 -> s' = s)).
  { intros e. do 2 eexists. split; [reflexivity|]. cbn. unfold contribute_statuses.
    split; [set_solver | done]. }
  unfold contribute. cbn [mbind prog_bind perform bind try_except run exec fst snd].
  destruct (get_str_cases data "source_text" "strip") as [[st ->]|[e ->]]; [|apply Herr].
  destruct (get_str_cases data "target_text" "strip") as [[tt ->]|[e ->]]; [|apply Herr].
  destruct (get_str_cases data "source_language" "lower") as [[sl ->]|[e ->]];
    [|apply Herr].
  destruct (get_str_cases data "target_language" "lower") as [[tl ->]|[e ->]];
    [|apply Herr].
  destruct (get_str_cases data "source_example" "strip") as [[se ->]|[e ->]];
    [|apply Herr].
  destruct (get_str_cases data "target_example" "strip") as [[te ->]|[e ->]];
    [|apply Herr].
  cbn [bind]. apply run_contribute_body_status.
Qed.

(** X14.  Whatever the request and the store, [contribute] answers (no
    exception escapes) with status 201, 400, 409 or 500, and with
    status 400 or 409 the store is left as it is: a request is refused
    as invalid or as a duplicate before anything is written. *)
Theorem contribute_writes_only_when_accepted (data : dict) (id ts : string) (s : Store) :
  exists (r : response) (s' : Store),
    run extractOne (contribute TEMPORARY_DICTIONARIES data id ts) s = (inr r, s')
    /\ r.2 ∈ contribute_statuses
    /\ (r.2 = 400 \/ r.2 = 409 -> s' = s).
Proof.
  destruct (run_contribute_status data id ts s) as (r & s' & Hrun & Hst & Hsame).
  exists r, s'. split; [exact Hrun|]. split; [exact Hst|].
  intros [E|E]; apply Hsame; rewrite E; discriminate.
Qed.

Lemma normalize_source_idem (s : string) :
  normalize_source (normalize_source s) = normalize_source s.
Proof.
  unfold normalize_source.
  by rewrite <- PyFacts.lower_strip, PyFacts.strip_idem, PyFacts.lower_idem.
Qed.

(** X15.  [str.lower] and [str.strip] are any two functions on text such
    that a text that was trimmed and lower-cased, or lower-cased and
    trimmed, or trimmed, is not changed by doing so again.  Two
    contribution requests are given, the second with the normal forms
    of the fields of the first (source text trimmed and lower-cased,
    languages lower-cased and trimmed, target text and examples
    trimmed): with the same id and time [contribute] is the same
    program on both, so it gives the same response and the same
    store. *)
Theorem contribute_normalization_invariance (lower strip : string -> string)
    (data data' : dict) (st tt sl tl se te id ts : string) (s : Store) :
  (forall t : string, lower (strip (lower (strip t))) = lower (strip t)) ->
  (forall t : string, strip (lower (strip (lower t))) = strip (lower t)) ->
  (forall t : string, strip (strip t) = strip t) ->
  str_field data "source_text" = Some st ->
  str_field data "target_text" = Some tt ->
  str_field data "source_language" = Some sl ->
  str_field data "target_language" = Some tl ->
  str_field data "source_example" = Some se ->
  str_field data "target_example" = Some te ->
  str_field data' "source_text" = Some (lower (strip st)) ->
  str_field data' "target_text" = Some (strip tt) ->
  str_field data' "source_language" = Some (strip (lower sl)) ->
  str_field data' "target_language" = Some (strip (lower tl)) ->
  str_field data' "source_example" = Some (strip se) ->
  str_field data' "target_example" = Some (strip te) ->
  Text.contribute lower strip TEMPORARY_DICTIONARIES data' id ts
  = Text.contribute lower strip TEMPORARY_DICTIONARIES data id ts
  /\ run extractOne (Text.contribute lower strip TEMPORARY_DICTIONARIES data' id ts) s
     = run extractOne (Text.contribute lower strip TEMPORARY_DICTIONARIES data id ts) s.
Proof.
  intros I1 I2 I3 H1 H2 H3 H4 H5 H6 H1' H2' H3' H4' H5' H6'.
  assert (E : Text.contribute lower strip TEMPORARY_DICTIONARIES data' id ts
              = Text.contribute lower strip TEMPORARY_DICTIONARIES data id ts).
  { rewrite (text_contribute_run _ _ _ _ _ _ _ _ _ id ts s H1 H2 H3 H4 H5 H6),
      (text_contribute_run _ _ _ _ _ _ _ _ _ id ts s H1' H2' H3' H4' H5' H6').
    by rewrite I1, !I2, !I3. }
  split; [exact E | by rewrite E].
Qed.

(** X16.  Whatever its outcome, a run of [contribute] with the id [id]
    leaves every primary record of another id as it was and every copy
    of another id as it was; and when it answers another status than
    500, it leaves every aggregate but the one of the pair named in the
    response as it was. *)
Theorem contribute_leaves_the_rest (data : dict) (id ts : string) (s s' : Store)
    (r : response) :
  run extractOne (contribute TEMPORARY_DICTIONARIES data id ts) s = (inr r, s') ->
  (forall id' : string, id' <> id -> contributions s' !! id' = contributions s !! id')
  /\ (forall key id' : string,
        id' <> id -> translations s' !! (key, id') = translations s !! (key, id'))
  /\ (r.2 <> 500 ->
      forall key : string,
        r.1 !! "language_pair" <> Some (VStr key) ->
        language_pairs s' !! key = language_pairs s !! key).
Proof.
  intros Hrun.
  destruct (run_contribute_cases TEMPORARY_DICTIONARIES extractOne data id ts s)
    as [(r0 & E & Hne)|(st & tt & sl & tl & se & te & E)];
    rewrite E in Hrun; injection Hrun as <- <-; [done|].
  unfold saved. cbn [contributions translations language_pairs]. repeat split.
  - intros id' Hne. by rewrite lookup_insert_ne.
  - intros key id' Hne. rewrite lookup_insert_ne; [done | congruence].
  - intros _ key Hne. rewrite lookup_insert_ne; [done|].
    intros Heq. apply Hne. rewrite <- Heq. vm_compute. reflexivity.
Qed.

(** ** Counters over a sequence of operations *)



(** ** Contributions and later resolutions *)

Lemma record_fields (id st tt sl tl se te ts : string) :
  let c := contribution_record id st tt sl tl se te ts in
  c !! "source_text" = Some (VStr st)
  /\ c !! "source_language" = Some (VStr sl)
  /\ c !! "target_language" = Some (VStr tl)
  /\ c !! "status" = Some (VStr "pending")
  /\ c !! "target_text" = Some (VStr tt).
Proof. cbn zeta. repeat split; vm_compute; reflexivity. Qed.

Lemma record_not_validated (id st tt sl tl se te ts a b c : string) :
  matches (validated_filters a b c) (contribution_record id st tt sl tl se te ts) = false.
Proof.
  apply not_true_is_false. unfold validated_filters. rewrite matches_fields.
  intros (_ & _ & _ & H). destruct (record_fields id st tt sl tl se te ts) as (_ & _ & _ & E & _).
  rewrite E in H. discriminate.
Qed.

Lemma accepted_run (data : dict) (st tt sl tl se te id ts : string) (s : Store) :
  str_field data "source_text" = Some st ->
  str_field data "target_text" = Some tt ->
  str_field data "source_language" = Some sl ->
  str_field data "target_language" = Some tl ->
  str_field data "source_example" = Some se ->
  str_field data "target_example" = Some te ->
  valid_contribution (normalize_source st) (Py.strip tt) (normalize sl) (normalize tl) ->
  (forall dictionary : odict string,
     od_get TEMPORARY_DICTIONARIES (pair_key (normalize sl) (normalize tl)) = Some dictionary ->
     od_get dictionary (normalize_source st) = None) ->
  (forall (id' : string) (d : dict),
     contributions s !! id' = Some d ->
     matches (validated_filters (normalize_source st) (normalize sl) (normalize tl)) d
     = false) ->
  run extractOne (contribute TEMPORARY_DICTIONARIES data id ts) s
  = (inr (success_response id (pair_key (normalize sl) (normalize tl))),
     saved s (pair_key (normalize sl) (normalize tl)) id (normalize sl) (normalize tl) ts
       (contribution_record id (normalize_source st) (Py.strip tt) (normalize sl)
          (normalize tl) (Py.strip se) (Py.strip te) ts)).
Proof.
  intros H1 H2 H3 H4 H5 H6 Hv Habs Hnone. unfold normalize_source in *.
  pose proof (run_contribute TEMPORARY_DICTIONARIES extractOne data st tt sl tl se te id ts s
                H1 H2 H3 H4 H5 H6 Hv) as Hrun.
  cbn zeta in Hrun.
  assert (E : existing_in TEMPORARY_DICTIONARIES s (pair_key (normalize sl) (normalize tl))
                (Py.lower (Py.strip st)) (normalize sl) (normalize tl) = VNone).
  { unfold existing_in.
    rewrite (dictionary_translation_absent TEMPORARY_DICTIONARIES _ _ Habs). cbn.
    by rewrite (query_none _ _ _ Hnone). }
  rewrite E in Hrun. exact Hrun.
Qed.

(** X18.  A contribution that passes validation, for a pair that has no
    bucket and a source text without validated contribution in the
    store, is accepted with status 201; yet a resolution request for
    that pair, run on the store that results, is still answered as not
    supported (status 404), whatever its text: the record is stored but
    not served. *)
Theorem contribution_to_unsupported_pair_is_not_served (data data2 : dict)
    (st tt sl tl se te id ts sl2 tl2 text2 : string) (s : Store) :
  str_field data "source_text" = Some st ->
  str_field data "target_text" = Some tt ->
  str_field data "source_language" = Some sl ->
  str_field data "target_language" = Some tl ->
  str_field data "source_example" = Some se ->
  str_field data "target_example" = Some te ->
  valid_contribution (normalize_source st) (Py.strip tt) (normalize sl) (normalize tl) ->
  od_get TEMPORARY_DICTIONARIES (pair_key (normalize sl) (normalize tl)) = None ->
  (forall (id' : string) (d : dict),
     contributions s !! id' = Some d ->
     matches (validated_filters (normalize_source st) (normalize sl) (normalize tl)) d
     = false) ->
  str_field data2 "sourceLang" = Some sl2 ->
  str_field data2 "targetLang" = Some tl2 ->
  str_field data2 "text" = Some text2 ->
  normalize sl2 = normalize sl ->
  normalize tl2 = normalize tl ->
  normalize text2 <> "" ->
  let out := run extractOne (contribute TEMPORARY_DICTIONARIES data id ts) s in
  out.1 = inr (success_response id (pair_key (normalize sl) (normalize tl)))
  /\ is_Some (contributions out.2 !! id)
  /\ run extractOne (translate TEMPORARY_DICTIONARIES data2) out.2
     = (inr (not_supported_response TEMPORARY_DICTIONARIES (normalize sl) (normalize tl)),
        out.2).
Proof.
  intros H1 H2 H3 H4 H5 H6 Hv Hd Hnone Hs2 Ht2 Hx2 Es Et Hx out.
  assert (Habs : forall dictionary : odict string,
             od_get TEMPORARY_DICTIONARIES (pair_key (normalize sl) (normalize tl))
             = Some dictionary ->
             od_get dictionary (normalize_source st) = None) by (rewrite Hd; discriminate).
  unfold out. rewrite (accepted_run _ _ _ _ _ _ _ id ts s H1 H2 H3 H4 H5 H6 Hv Habs Hnone).
  cbn [fst snd]. split; [reflexivity|].
  split; [unfold saved; cbn [contributions]; rewrite lookup_insert_eq; eauto|].
  assert (Hv2 : valid_resolution (normalize sl2) (normalize tl2) (normalize text2)).
  { destruct Hv as (_ & _ & V3 & V4). rewrite Es, Et. by repeat split. }
  by rewrite (translate_valid TEMPORARY_DICTIONARIES _ _ _ _ Hs2 Ht2 Hx2 Hv2), Es, Et, Hd.
Qed.

(** X19.  A contribution passes validation and is accepted: its pair has
    a bucket without its source text, and the store holds no validated
    and no pending contribution of that source text and pair.  A
    resolution request for the same pair and text (up to
    normalisation) that gets to the pending tier, run on the store that
    results, is answered with matchType "pending" and the trimmed
    target text of the contribution as the translation. *)
Theorem contributed_translation_is_served (data data2 : dict)
    (st tt sl tl se te id ts sl2 tl2 text2 : string) (s : Store) :
  str_field data "source_text" = Some st ->
  str_field data "target_text" = Some tt ->
  str_field data "source_language" = Some sl ->
  str_field data "target_language" = Some tl ->
  str_field data "source_example" = Some se ->
  str_field data "target_example" = Some te ->
  valid_contribution (normalize_source st) (Py.strip tt) (normalize sl) (normalize tl) ->
  reaches_pending TEMPORARY_DICTIONARIES extractOne
    (normalize sl) (normalize tl) (normalize_source st) ->
  (forall (id' : string) (d : dict),
     contributions s !! id' = Some d ->
     matches (validated_filters (normalize_source st) (normalize sl) (normalize tl)) d
     = false) ->
  (forall (id' : string) (d : dict),
     contributions s !! id' = Some d ->
     matches (pending_filters (normalize_source st) (normalize sl) (normalize tl)) d
     = false) ->
  str_field data2 "sourceLang" = Some sl2 ->
  str_field data2 "targetLang" = Some tl2 ->
  str_field data2 "text" = Some text2 ->
  normalize sl2 = normalize sl ->
  normalize tl2 = normalize tl ->
  normalize text2 = normalize_source st ->
  let out := run extractOne (contribute TEMPORARY_DICTIONARIES data id ts) s in
  out.1 = inr (success_response id (pair_key (normalize sl) (normalize tl)))
  /\ run extractOne (translate TEMPORARY_DICTIONARIES data2) out.2
     = (inr (pending_response (normalize sl) (normalize tl) (normalize_source st)
               (VStr (Py.strip tt))), out.2).
Proof.
  intros H1 H2 H3 H4 H5 H6 Hv Hr Hnv Hnp Hs2 Ht2 Hx2 Es Et Ex out.
  assert (Habs : forall dictionary : odict string,
             od_get TEMPORARY_DICTIONARIES (pair_key (normalize sl) (normalize tl))
             = Some dictionary ->
             od_get dictionary (normalize_source st) = None).
  { destruct Hr as (dictionary & Hd & Hk & _). rewrite Hd. by intros ? [= <-]. }
  unfold out. rewrite (accepted_run _ _ _ _ _ _ _ id ts s H1 H2 H3 H4 H5 H6 Hv Habs Hnv).
  cbn [fst snd]. split; [reflexivity|].
  set (record := contribution_record id (normalize_source st) (Py.strip tt) (normalize sl)
                   (normalize tl) (Py.strip se) (Py.strip te) ts).
  set (s' := saved s _ id _ _ ts record).
  assert (Hv2 : valid_resolution (normalize sl2) (normalize tl2) (normalize text2)).
  { destruct Hv as (V1 & _ & V3 & V4). rewrite Es, Et, Ex. by repeat split. }
  assert (Hr2 : reaches_pending TEMPORARY_DICTIONARIES extractOne
                  (normalize sl2) (normalize tl2) (normalize text2))
    by (by rewrite Es, Et, Ex).
  rewrite (translate_reaches_pending _ _ _ _ s' Hs2 Ht2 Hx2 Hv2 Hr2), run_pending_tier_answer.
  rewrite Es, Et, Ex.
  set (filters := pending_filters (normalize_source st) (normalize sl) (normalize tl)).
  destruct (record_fields id (normalize_source st) (Py.strip tt) (normalize sl)
              (normalize tl) (Py.strip se) (Py.strip te) ts) as (F1 & F2 & F3 & F4 & F5).
  fold record in F1, F2, F3, F4, F5.
  assert (Hm : matches filters record = true).
  { unfold filters, pending_filters. by apply matches_fields. }
  destruct (query_some (contributions s') filters 0) as (d & rest & Hq).
  { exists id, record. split; [|exact Hm].
    unfold s', saved. cbn [contributions]. apply lookup_insert_eq. }
  rewrite Hq. destruct (query_head _ _ _ _ _ Hq) as (Hmd & id' & Hid).
  unfold s', saved in Hid. cbn [contributions] in Hid.
  apply lookup_insert_Some in Hid as [[_ <-]|[_ Hid]].
  - by rewrite F5.
  - pose proof (Hnp id' d Hid) as Hno. fold filters in Hno. congruence.
Qed.

(** X20.  A contribution passes validation, the bucket of its pair (if
    any) has no entry for its source text and no matching record of the
    store is validated.  Then the same request served twice, with two
    ids, is accepted twice: both records are in the store afterwards and
    the total and pending counters of the pair have grown by two. *)
Theorem identical_contribution_accepted_twice (data : dict)
    (st tt sl tl se te id1 ts1 id2 ts2 : string) (s : Store) :
  str_field data "source_text" = Some st ->
  str_field data "target_text" = Some tt ->
  str_field data "source_language" = Some sl ->
  str_field data "target_language" = Some tl ->
  str_field data "source_example" = Some se ->
  str_field data "target_example" = Some te ->
  valid_contribution (normalize_source st) (Py.strip tt) (normalize sl) (normalize tl) ->
  (forall dictionary : odict string,
     od_get TEMPORARY_DICTIONARIES (pair_key (normalize sl) (normalize tl)) = Some dictionary ->
     od_get dictionary (normalize_source st) = None) ->
  (forall (id' : string) (d : dict),
     contributions s !! id' = Some d ->
     matches (validated_filters (normalize_source st) (normalize sl) (normalize tl)) d
     = false) ->
  id1 <> id2 ->
  let key := pair_key (normalize sl) (normalize tl) in
  let out1 := run extractOne (contribute TEMPORARY_DICTIONARIES data id1 ts1) s in
  let out2 := run extractOne (contribute TEMPORARY_DICTIONARIES data id2 ts2) out1.2 in
  out1.1 = inr (success_response id1 key)
  /\ out2.1 = inr (success_response id2 key)
  /\ is_Some (contributions out2.2 !! id1)
  /\ is_Some (contributions out2.2 !! id2)
  /\ aggregate_counter out2.2 key "total_contributions"
     = aggregate_counter s key "total_contributions" + 2
  /\ aggregate_counter out2.2 key "pending_contributions"
     = aggregate_counter s key "pending_contributions" + 2.
Proof.
  intros H1 H2 H3 H4 H5 H6 Hv Habs Hnone Hne key out1 out2.
  unfold out2, out1.
  rewrite (accepted_run _ _ _ _ _ _ _ id1 ts1 s H1 H2 H3 H4 H5 H6 Hv Habs Hnone).
  cbn [fst snd]. fold key.
  set (rec1 := contribution_record id1 _ _ _ _ _ _ ts1).
  set (s1 := saved s key id1 _ _ ts1 rec1).
  assert (Hnone1 : forall (id' : string) (d : dict),
             contributions s1 !! id' = Some d ->
             matches (validated_filters (normalize_source st) (normalize sl) (normalize tl)) d
             = false).
  { intros id' d Hd. unfold s1, saved in Hd. cbn [contributions] in Hd.
    apply lookup_insert_Some in Hd as [[_ <-]|[_ Hd]]; [apply record_not_validated|].
    by apply (Hnone id'). }
  rewrite (accepted_run _ _ _ _ _ _ _ id2 ts2 s1 H1 H2 H3 H4 H5 H6 Hv Habs Hnone1).
  cbn [fst snd]. fold key.
  set (rec2 := contribution_record id2 _ _ _ _ _ _ ts2).
  destruct (saved_counters s key id1 (normalize sl) (normalize tl) ts1 rec1)
    as (Ht1 & Hp1 & _).
  destruct (saved_counters s1 key id2 (normalize sl) (normalize tl) ts2 rec2)
    as (Ht2 & Hp2 & _).
  fold s1 in Ht1, Hp1.
  split; [reflexivity|]. split; [reflexivity|].
  split; [|split; [|split]].
  - unfold s1, saved. cbn [contributions]. rewrite lookup_insert_ne by congruence.
    rewrite lookup_insert_eq. eauto.
  - unfold saved. cbn [contributions]. rewrite lookup_insert_eq. eauto.
  - rewrite Ht2, Ht1. lia.
  - rewrite Hp2, Hp1. lia.
Qed.

(** ** Requests in flight together *)

Lemma step_reads_only {A : Type} (p : prog A) (s : Store) :
  reads_only p ->
  (step_thread extractOne p s).2 = s /\ reads_only (step_thread extractOne p s).1.
Proof.
  destruct p as [a|e|X c k]; cbn; [done..|].
  intros [Hc Hk]. split; [by apply exec_read | apply Hk].
Qed.

Lemma interleave_reads_only {A : Type} (schedule : list nat) (pool : list (prog A))
    (s : Store) :
  Forall reads_only pool ->
  let out := interleave extractOne schedule pool s in
  out.2 = s
  /\ length out.1 = length pool
  /\ (forall (i : nat) (p : prog A),
        pool !! i = Some p ->
        exists p' : prog A,
          out.1 !! i = Some p' /\ run extractOne p' s = run extractOne p s).
Proof.
  cbn zeta. revert pool. induction schedule as [|j schedule IH]; intros pool Hro; cbn.
  - repeat split. eauto.
  - destruct (pool !! j) as [q|] eqn:Ej; [|by apply IH].
    assert (Hq : reads_only q) by (eapply Forall_lookup_1; eauto).
    destruct (step_reads_only q s Hq) as [Es Hq'].
    rewrite Es.
    destruct (IH (<[j := (step_thread extractOne q s).1]> pool)) as (IH1 & IH2 & IH3).
    { by apply Forall_insert. }
    split; [exact IH1|]. split; [by rewrite IH2, length_insert|].
    intros i p Hp. destruct (decide (i = j)) as [->|Hne].
    + assert (p = q) as -> by congruence.
      destruct (IH3 j (step_thread extractOne q s).1) as (p' & Hp' & Hrun).
      { apply list_lookup_insert_eq. by eapply lookup_lt_Some. }
      exists p'. split; [exact Hp'|].
      rewrite Hrun, (run_step_thread extractOne q s), Es. reflexivity.
    + apply IH3. by rewrite list_lookup_insert_ne.
Qed.

(** X21.  Any number of resolution requests in flight on one store,
    their calls interleaved in any order and stopped at any point, leave
    the store as it is; and each request, continued alone from where it
    stands, gives the response it would give if it were served alone. *)
Theorem concurrent_resolutions_do_not_interfere (datas : list dict)
    (schedule : list nat) (s : Store) :
  let out :=
    interleave extractOne schedule (translate TEMPORARY_DICTIONARIES <$> datas) s in
  out.2 = s
  /\ (forall (i : nat) (data : dict),
        datas !! i = Some data ->
        exists p' : prog response,
          out.1 !! i = Some p'
          /\ run extractOne p' s
             = run extractOne (translate TEMPORARY_DICTIONARIES data) s).
Proof.
  cbn zeta.
  destruct (interleave_reads_only schedule (translate TEMPORARY_DICTIONARIES <$> datas) s)
    as (H1 & _ & H3).
  { apply Forall_fmap, Forall_forall. intros data _. apply translate_reads_only. }
  split; [exact H1|]. intros i data Hd. apply H3.
  by rewrite list_lookup_fmap, Hd.
Qed.

Lemma aggregate_inv_documents (s : Store) :
  aggregate_inv s
  <-> forall (key : string) (d : dict), language_pairs s !! key = Some d -> aggregate_ok d.
Proof.
  unfold aggregate_inv, aggregate_counter, aggregate_ok. split.
  - intros H key d Hd. specialize (H key). by rewrite Hd in H.
  - intros H key. destruct (language_pairs s !! key) as [d|] eqn:Hd; [by apply (H key)|lia].
Qed.

Lemma exec_keeps_aggregates {X : Type} (c : call X) (s : Store) :
  keeps_aggregates c -> aggregate_inv s -> aggregate_inv (exec extractOne c s).2.
Proof.
  rewrite !aggregate_inv_documents.
  destruct c as [q cs| |fs n|id d|key|key d|key fts|key id d]; cbn; intros Hc Hinv;
    try exact Hinv.
  - intros key' d' Hd'. apply lookup_insert_Some in Hd' as [[_ <-]|[_ Hd']];
      [exact Hc | by apply (Hinv key')].
  - destruct (language_pairs s !! key) as [d0|] eqn:E0; cbn; [|exact Hinv].
    intros key' d' Hd'. apply lookup_insert_Some in Hd' as [[_ <-]|[_ Hd']];
      [apply Hc; by apply (Hinv key) | by apply (Hinv key')].
Qed.

Lemma aggregate_safe_bind {A B : Type} (p : prog A) (f : A -> prog B) :
  aggregate_safe p -> (forall a, aggregate_safe (f a)) -> aggregate_safe (bind p f).
Proof.
  intros Hp Hf. induction p as [a|e|X c k IH]; cbn in *; [apply Hf | exact I |].
  destruct Hp as [Hc Hk]. split; [exact Hc | intros x; apply IH, Hk].
Qed.

Lemma aggregate_safe_try {A : Type} (p : prog A) (h : exn -> prog A) :
  aggregate_safe p -> (forall e, aggregate_safe (h e)) -> aggregate_safe (try_except p h).
Proof.
  intros Hp Hh. induction p as [a|e|X c k IH]; cbn in *; [exact I | apply Hh |].
  destruct Hp as [Hc Hk]. split; [exact Hc | intros x; apply IH, Hk].
Qed.

Lemma reads_only_aggregate_safe {A : Type} (p : prog A) :
  reads_only p -> aggregate_safe p.
Proof.
  induction p as [a|e|X c k IH]; cbn; [done..|].
  intros [Hc Hk]. split; [by destruct c | intros x; apply IH, Hk].
Qed.

Lemma counter_update_keeps (ts : string) (d : dict) :
  aggregate_ok d -> aggregate_ok (apply_update d (counter_update ts)).
Proof.
  unfold aggregate_ok. destruct (counter_update_counters d ts) as (Ht & Hp & _).
  rewrite Ht, Hp. lia.
Qed.

Lemma save_contribution_safe (id key sl tl ts : string) (c : dict) :
  aggregate_safe (save_contribution id key sl tl ts c).
Proof.
  unfold save_contribution. cbn. split; [exact I|]. intros _.
  split; [exact I|]. intros [d|]; cbn.
  - split; [intros d'; apply counter_update_keeps|]. intros [e|]; cbn; [exact I|].
    split; [exact I|]. intros _. exact I.
  - split.
    { change (aggregate_ok (new_language_pair sl tl ts)). unfold aggregate_ok.
      rewrite !new_language_pair_counters by eauto. lia. }
    intros _. split; [intros d'; apply counter_update_keeps|]. intros [e|]; cbn; [exact I|].
    split; [exact I|]. intros _. exact I.
Qed.

Lemma contribute_safe (data : dict) (id ts : string) :
  aggregate_safe (contribute TEMPORARY_DICTIONARIES data id ts).
Proof.
  unfold contribute. apply aggregate_safe_try; [|intros e; exact I].
  cbn [mbind prog_bind perform bind]. split; [exact I|]. intros _.
  repeat (apply aggregate_safe_bind;
          [apply reads_only_aggregate_safe, get_str_reads_only | intros ?]).
  unfold contribute_body.
  destruct (negb _ || negb _); [exact I|].
  destruct (negb _ || negb _); [exact I|].
  change (mbind ?f ?p) with (bind p f). apply aggregate_safe_bind.
  - unfold find_existing. destruct (negb _); [|exact I]. cbn.
    split; [exact I|]. intros [|d rest]; exact I.
  - intros existing. destruct (truthy existing); [exact I|]. apply save_contribution_safe.
Qed.

Lemma handler_safe (op : operation) : aggregate_safe (handler TEMPORARY_DICTIONARIES op).
Proof.
  destruct op as [data|data id ts]; cbn [handler].
  - apply reads_only_aggregate_safe, translate_reads_only.
  - apply contribute_safe.
Qed.

Lemma interleave_aggregate_safe {A : Type} (schedule : list nat) (pool : list (prog A))
    (s : Store) :
  Forall aggregate_safe pool -> aggregate_inv s ->
  aggregate_inv (interleave extractOne schedule pool s).2.
Proof.
  revert pool s. induction schedule as [|j schedule IH]; intros pool s Hsafe Hinv; cbn;
    [exact Hinv|].
  destruct (pool !! j) as [q|] eqn:Ej; [|by apply IH].
  assert (Hq : aggregate_safe q) by (eapply Forall_lookup_1; eauto).
  destruct q as [a|e|X c k]; cbn in *.
  - apply IH; [by apply Forall_insert | exact Hinv].
  - apply IH; [by apply Forall_insert | exact Hinv].
  - destruct Hq as [Hc Hk]. apply IH; [apply Forall_insert; [exact Hsafe | apply Hk]|].
    by apply exec_keeps_aggregates.
Qed.

(** X22.  Resolution and contribution requests in flight on one store,
    their calls interleaved in any order and stopped at any point, keep
    the total counter of every aggregate at least its pending counter:
    the race on the creation of an aggregate can lose counts but cannot
    break this order. *)
Theorem aggregates_hold_under_any_schedule (ops : list operation) (schedule : list nat)
    (s : Store) :
  aggregate_inv s ->
  aggregate_inv
    (interleave extractOne schedule (handler TEMPORARY_DICTIONARIES <$> ops) s).2.
Proof.
  intros Hinv. apply interleave_aggregate_safe; [|exact Hinv].
  apply Forall_fmap, Forall_forall. intros op _. apply handler_safe.
Qed.

(** ** Where the answers come from *)

Lemma translate_outcome_of_run (data : dict) (sl tl text : string) (s s' : Store)
    (r : response) :
  str_field data "sourceLang" = Some sl ->
  str_field data "targetLang" = Some tl ->
  str_field data "text" = Some text ->
  run extractOne (translate TEMPORARY_DICTIONARIES data) s = (inr r, s') ->
  translate_outcome TEMPORARY_DICTIONARIES extractOne s
    (normalize sl) (normalize tl) (normalize text) r.
Proof.
  intros Hs Ht Hx Hrun.
  rewrite (translate_fields _ _ _ _ _ Hs Ht Hx) in Hrun.
  destruct (run_translate_body_outcome (normalize sl) (normalize tl) (normalize text) s)
    as (r0 & Hr0 & Ho).
  rewrite Hr0 in Hrun. by injection Hrun as -> _.
Qed.

(** X23.  When [translate] answers with matchType "exact", its status is
    200 and the translation is the entry that the bucket of the
    normalised pair has under the normalised text.  The key that is
    matched is thus lower-cased and trimmed: an entry of the table whose
    key is not in that form is never an exact answer. *)
Theorem exact_answer_is_a_table_entry (data : dict) (sl tl text : string) (s s' : Store)
    (r : response) :
  str_field data "sourceLang" = Some sl ->
  str_field data "targetLang" = Some tl ->
  str_field data "text" = Some text ->
  run extractOne (translate TEMPORARY_DICTIONARIES data) s = (inr r, s') ->
  r.1 !! "matchType" = Some (VStr "exact") ->
  exists (dictionary : odict string) (translation : string),
    od_get TEMPORARY_DICTIONARIES (pair_key (normalize sl) (normalize tl)) = Some dictionary
    /\ od_get dictionary (normalize text) = Some translation
    /\ r.1 !! "translation" = Some (VStr translation)
    /\ r.1 !! "originalText" = Some (VStr (normalize text))
    /\ r.2 = 200
    /\ (forall key : string, normalize key <> key -> normalize text <> key).
Proof.
  intros Hs Ht Hx Hrun Hmt.
  destruct (translate_outcome_of_run _ _ _ _ _ _ _ Hs Ht Hx Hrun)
    as [->|[->|[[e ->]|[[-> _]|[Hex|[Hfz|[Hp| ->]]]]]]];
    [| | | | |destruct Hfz as (? & ? & ? & ? & _ & _ & _ & _ & _ & ->)
     |destruct Hp as (? & ? & ? & _ & _ & ->)|];
    try (vm_compute in Hmt; discriminate).
  destruct Hex as (dictionary & translation & Hd & Hk & ->).
  exists dictionary, translation. split; [exact Hd|]. split; [exact Hk|].
  split; [vm_compute; reflexivity|]. split; [vm_compute; reflexivity|].
  split; [reflexivity|].
  intros key Hkey E. apply Hkey. rewrite <- E. apply normalize_idem.
Qed.

(** X24.  When [translate] answers with matchType "fuzzy", its status is
    200, the bucket of the pair has no entry for the normalised text,
    the matcher gave the matched word with the score that is reported,
    that score is at least 70, and the translation is the entry of the
    bucket under the matched word. *)
Theorem fuzzy_answer_is_a_scored_entry (data : dict) (sl tl text : string) (s s' : Store)
    (r : response) :
  str_field data "sourceLang" = Some sl ->
  str_field data "targetLang" = Some tl ->
  str_field data "text" = Some text ->
  run extractOne (translate TEMPORARY_DICTIONARIES data) s = (inr r, s') ->
  r.1 !! "matchType" = Some (VStr "fuzzy") ->
  exists (dictionary : odict string) (translation best_match : string) (score : Z),
    od_get TEMPORARY_DICTIONARIES (pair_key (normalize sl) (normalize tl)) = Some dictionary
    /\ od_get dictionary (normalize text) = None
    /\ extractOne (normalize text) (od_keys dictionary) = Some (best_match, score)
    /\ 70 <= score
    /\ od_get dictionary best_match = Some translation
    /\ r.1 !! "translation" = Some (VStr translation)
    /\ r.1 !! "matchedWord" = Some (VStr best_match)
    /\ r.1 !! "fuzzyMatchScore" = Some (VInt score)
    /\ r.2 = 200.
Proof.
  intros Hs Ht Hx Hrun Hmt.
  destruct (translate_outcome_of_run _ _ _ _ _ _ _ Hs Ht Hx Hrun)
    as [->|[->|[[e ->]|[[-> _]|[Hex|[Hfz|[Hp| ->]]]]]]];
    [| | | |destruct Hex as (? & ? & _ & _ & ->)| 
     |destruct Hp as (? & ? & ? & _ & _ & ->)|];
    try (vm_compute in Hmt; discriminate).
  destruct Hfz as (dictionary & translation & best_match & score & Hd & Hk & Hm & Hge & Hb & ->).
  exists dictionary, translation, best_match, score.
  repeat (split; [first [assumption | vm_compute; reflexivity]|]). reflexivity.
Qed.

(** X25.  When [contribute] answers a request whose fields are strings
    with status 409, it has written nothing, and the existing
    translation it reports is true (not empty) and is either the entry
    the bucket of the pair has under the normalised source text, or the
    target text of a contribution that is in the store with status
    "validated" and the same source text and languages. *)
Theorem duplicate_answer_points_to_a_translation (data : dict)
    (st tt sl tl se te id ts : string) (s s' : Store) (r : response) :
  str_field data "source_text" = Some st ->
  str_field data "target_text" = Some tt ->
  str_field data "source_language" = Some sl ->
  str_field data "target_language" = Some tl ->
  str_field data "source_example" = Some se ->
  str_field data "target_example" = Some te ->
  run extractOne (contribute TEMPORARY_DICTIONARIES data id ts) s = (inr r, s') ->
  r.2 = 409 ->
  s' = s
  /\ exists existing : value,
       r.1 !! "existing_translation" = Some existing
       /\ truthy existing = true
       /\ ((exists (dictionary : odict string) (translation : string),
              od_get TEMPORARY_DICTIONARIES (pair_key (normalize sl) (normalize tl))
              = Some dictionary
              /\ od_get dictionary (normalize_source st) = Some translation
              /\ existing = VStr translation)
           \/ (exists (id' : string) (d : dict),
                 contributions s !! id' = Some d
                 /\ d !! "source_text" = Some (VStr (normalize_source st))
                 /\ d !! "source_language" = Some (VStr (normalize sl))
                 /\ d !! "target_language" = Some (VStr (normalize tl))
                 /\ d !! "status" = Some (VStr "validated")
                 /\ d !! "target_text" = Some existing)).
Proof.
  intros H1 H2 H3 H4 H5 H6 Hrun H409.
  rewrite (contribute_body_run _ _ _ _ _ _ _ id ts s H1 H2 H3 H4 H5 H6) in Hrun.
  rewrite run_try_except in Hrun. unfold contribute_body in Hrun.
  destruct (negb (Py.truthy_str (normalize_source st)) || negb (Py.truthy_str (Py.strip tt))).
  { injection Hrun as <- _. discriminate. }
  destruct (negb (Py.truthy_str (normalize sl)) || negb (Py.truthy_str (normalize tl))).
  { injection Hrun as <- _. discriminate. }
  change (mbind ?f ?p) with (bind p f) in Hrun.
  rewrite run_bind, run_find_existing in Hrun.
  fold (pair_key (normalize sl) (normalize tl)) in Hrun.
  set (existing := existing_in _ _ _ _ _ _) in Hrun.
  destruct (truthy existing) eqn:Etruthy.
  2:{ rewrite run_save_contribution in Hrun. injection Hrun as <- _. discriminate. }
  injection Hrun as <- <-. split; [reflexivity|].
  exists existing. split; [vm_compute; reflexivity|]. split; [exact Etruthy|].
  unfold existing, existing_in in *.
  destruct (truthy (dictionary_translation _ _ _)) eqn:Edict.
  - left. unfold dictionary_translation in *.
    destruct (od_get TEMPORARY_DICTIONARIES _) as [dictionary|]; [|discriminate].
    destruct (od_get dictionary _) as [translation|] eqn:Ek; [|discriminate]. eauto.
  - right.
    destruct (query _ _ _) as [|d rest] eqn:Eq; [congruence|].
    destruct (query_head _ _ _ _ _ Eq) as (Hm & id' & Hid).
    apply matches_fields in Hm as (F1 & F2 & F3 & F4).
    exists id', d. repeat (split; [assumption|]).
    destruct (d !! "target_text") as [v|]; [reflexivity | discriminate].
Qed.

End MoreProperties.

(** ** The further properties at sample requests *)

Lemma translate_rejects_blank_text_witness :
  translate Sample.dictionaries (Sample.resolve "en" "fr" "   ")
  = Ret (dict_of [("error", VStr "No text provided for translation")], 400).
Proof.
  apply (translate_rejects_blank_text Sample.dictionaries _ "en" "fr" "   ");
    sample_facts.
Defined.

Lemma translate_rejects_blank_language_witness :
  Text.translate Py.lower Py.strip Sample.dictionaries (Sample.resolve " " "fr" "hello")
  = Ret (dict_of [("error", VStr "Source or target language not specified")], 400).
Proof.
  apply (translate_rejects_blank_language Sample.dictionaries Py.lower Py.strip
           _ " " "fr" "hello");
    first [sample_facts | left; reflexivity].
Defined.

Lemma translate_non_string_field_witness :
  exists e : exn, translate Sample.dictionaries More.numeric_text = Ret (error_response e).
Proof.
  apply (translate_non_string_field Sample.dictionaries More.numeric_text "text");
    [set_solver | reflexivity].
Defined.

Lemma translate_empty_bucket_witness :
  translate More.dictionaries (Sample.resolve "en" "es" "cat")
  = try_except (pending_tier "en" "es" "cat") internal_error.
Proof.
  destruct (translate_empty_bucket More.dictionaries (Sample.scoring 80)
              (Sample.resolve "en" "es" "cat") "en" "es" "cat") as [H _];
    [sample_facts..|exact H].
Defined.

Lemma reaches_pending_sample (score : Z) :
  reaches_pending More.dictionaries (Sample.scoring score) "en" "es" "cat".
Proof. exists []. repeat split. by left. Qed.

Lemma translate_serves_pending_witness :
  run (Sample.scoring 80) (translate More.dictionaries (Sample.resolve "EN" "es" " Cat"))
    More.pending_gato
  = (inr (pending_response "en" "es" "cat" (VStr "gato")), More.pending_gato).
Proof.
  destruct (translate_serves_pending More.dictionaries (Sample.scoring 80)
              (Sample.resolve "EN" "es" " Cat") "EN" "es" " Cat" (VStr "gato")
              More.pending_gato) as [H _]; [sample_facts.. | | | | exact H].
  - apply reaches_pending_sample.
  - exists "id-4", (contribution_record "id-4" "cat" "gato" "en" "es" "" "" "t4").
    split; vm_compute; reflexivity.
  - intros id d Hd _. unfold More.pending_gato, saved, empty_store in Hd.
    cbn [contributions] in Hd.
    apply lookup_insert_Some in Hd as [[_ <-]|[_ Hd]]; [vm_compute; reflexivity|].
    by rewrite lookup_empty in Hd.
Defined.

Lemma translate_no_match_witness :
  run (Sample.scoring 80) (translate More.dictionaries (Sample.resolve "en" "es" "cat"))
    empty_store
  = (inr (no_match_response "en" "es" "cat"), empty_store).
Proof.
  destruct (translate_no_match More.dictionaries (Sample.scoring 80)
              (Sample.resolve "en" "es" "cat") "en" "es" "cat" empty_store) as [H _];
    [sample_facts.. | | | exact H].
  - apply reaches_pending_sample.
  - intros id d Hd. cbn in Hd. by rewrite lookup_empty in Hd.
Defined.

Lemma translate_pending_without_target_text_witness :
  run (Sample.scoring 80) (translate More.dictionaries (Sample.resolve "en" "es" "cat"))
    More.pending_without_text
  = (inr (error_response (KeyError "'target_text'")), More.pending_without_text).
Proof.
  destruct (translate_pending_without_target_text More.dictionaries (Sample.scoring 80)
              (Sample.resolve "en" "es" "cat") "en" "es" "cat" More.pending_without_text)
    as [H _]; [sample_facts.. | | | | exact H].
  - apply reaches_pending_sample.
  - eexists "id-5", _. split; [apply lookup_singleton_eq | vm_compute; reflexivity].
  - intros id d Hd _. unfold More.pending_without_text in Hd. cbn [contributions] in Hd.
    apply lookup_singleton_Some in Hd as [_ <-]. apply lookup_delete_eq.
Defined.

Lemma pending_answer_is_in_store_witness :
  exists (id : string) (d : dict),
    contributions More.pending_gato !! id = Some d
    /\ d !! "source_text" = Some (VStr "cat")
    /\ d !! "target_text" = Some (VStr "gato").
Proof.
  destruct (pending_answer_is_in_store More.dictionaries (Sample.scoring 80)
              (Sample.resolve "en" "es" "cat") "en" "es" "cat"
              More.pending_gato More.pending_gato
              (pending_response "en" "es" "cat" (VStr "gato")))
    as (id & d & H1 & H2 & _ & _ & _ & H3); [sample_facts..|].
  exists id, d. repeat split; assumption.
Defined.

Lemma health_check_lists_supported_pairs_witness :
  exists h r : response,
    health_check Sample.dictionaries = Ret h
    /\ h.1 !! "dictionary_languages" = Some (VList ["en-fr"])
    /\ run (Sample.scoring 80) (translate Sample.dictionaries (Sample.resolve "en" "de" "hi"))
         empty_store = (inr r, empty_store)
    /\ (is_Some (r.1 !! "supportedPairs") <-> "en-de" ∉ ["en-fr"]).
Proof.
  destruct (health_check_lists_supported_pairs Sample.dictionaries (Sample.scoring 80)
              (Sample.resolve "en" "de" "hi") "en" "de" "hi" empty_store)
    as (h & r & H1 & _ & _ & H2 & H3 & H4); [sample_facts..|].
  exists h, r. repeat split; first [assumption | apply H4].
Defined.

Lemma contribute_rejects_blank_text_witness :
  run (Sample.scoring 0)
    (contribute Sample.dictionaries (Sample.contribution "cat" "  " "en" "fr") "id-1" "t1")
    Sample.pending_cat
  = (inr (dict_of [("error", VStr "Source text and target text are required")], 400),
     Sample.pending_cat).
Proof.
  apply (contribute_rejects_blank_text Sample.dictionaries (Sample.scoring 0)
           (Sample.contribution "cat" "  " "en" "fr") "cat" "  " "en" "fr" "" "");
    first [sample_facts | right; reflexivity].
Defined.

Lemma contribute_rejects_blank_language_witness :
  run (Sample.scoring 0)
    (Text.contribute Py.lower Py.strip Sample.dictionaries
       (Sample.contribution "cat" "chat" "en" "") "id-1" "t1")
    Sample.pending_cat
  = (inr (dict_of [("error", VStr "Source language and target language are required")],
          400), Sample.pending_cat).
Proof.
  apply (contribute_rejects_blank_language Sample.dictionaries (Sample.scoring 0)
           Py.lower Py.strip
           (Sample.contribution "cat" "chat" "en" "") "cat" "chat" "en" "" "" "");
    first [sample_facts | right; reflexivity].
Defined.

Lemma contribute_writes_only_when_accepted_witness :
  exists r : response,
    run (Sample.scoring 0)
      (contribute Sample.dictionaries (Sample.contribution "Hello" "salut" "en" "fr")
         "id-1" "t1") Sample.pending_cat
    = (inr r, Sample.pending_cat)
    /\ r.2 = 409.
Proof.
  destruct (contribute_writes_only_when_accepted Sample.dictionaries (Sample.scoring 0)
              (Sample.contribution "Hello" "salut" "en" "fr") "id-1" "t1"
              Sample.pending_cat) as (r & s' & Hrun & _ & Hsame).
  assert (E : r.2 = 409).
  { apply (f_equal (fun o => match o.1 with inr r => r.2 | inl _ => 0 end)) in Hrun.
    vm_compute in Hrun. exact (eq_sym Hrun). }
  exists r. split; [|exact E].
  rewrite Hrun. f_equal. apply Hsame. by right.
Defined.

Lemma contribute_non_string_field_witness :
  exists e : exn,
    run (Sample.scoring 0) (contribute Sample.dictionaries More.numeric_example "id-1" "t1")
      Sample.pending_cat
    = (inr (error_response e), Sample.pending_cat).
Proof.
  apply (contribute_non_string_field Sample.dictionaries (Sample.scoring 0)
           More.numeric_example "source_example"); [set_solver | reflexivity].
Defined.

Lemma contribute_normalization_invariance_witness :
  Text.contribute Py.lower Py.strip Sample.dictionaries
    (Sample.contribution "cat" "Chat" "en" "fr") "id-1" "t1"
  = Text.contribute Py.lower Py.strip Sample.dictionaries
      (Sample.contribution " Cat" "Chat " "EN " "Fr") "id-1" "t1".
Proof.
  destruct (contribute_normalization_invariance Sample.dictionaries (Sample.scoring 0)
              Py.lower Py.strip
              (Sample.contribution " Cat" "Chat " "EN " "Fr")
              (Sample.contribution "cat" "Chat" "en" "fr")
              " Cat" "Chat " "EN " "Fr" "" "" "id-1" "t1" empty_store) as [H _];
    [exact normalize_source_idem | exact normalize_idem | exact PyFacts.strip_idem
    | sample_facts.. | exact H].
Defined.

Lemma contribute_leaves_the_rest_witness :
  contributions
    (saved Sample.pending_cat "en-fr" "id-1" "en" "fr" "t1"
       (contribution_record "id-1" "dog" "chien" "en" "fr" "" "" "t1")) !! "id-0"
  = contributions Sample.pending_cat !! "id-0".
Proof.
  destruct (contribute_leaves_the_rest Sample.dictionaries (Sample.scoring 0)
              (Sample.contribution "dog" "chien" "en" "fr") "id-1" "t1"
              Sample.pending_cat
              (saved Sample.pending_cat "en-fr" "id-1" "en" "fr" "t1"
                 (contribution_record "id-1" "dog" "chien" "en" "fr" "" "" "t1"))
              (success_response "id-1" "en-fr")) as [H _];
    [vm_compute; reflexivity|].
  apply H. discriminate.
Defined.

Lemma contribution_to_unsupported_pair_is_not_served_witness :
  let out :=
    run (Sample.scoring 0)
      (contribute Sample.dictionaries (Sample.contribution "hund" "dog" "de" "en")
         "id-1" "t1") empty_store in
  out.1 = inr (success_response "id-1" "de-en")
  /\ run (Sample.scoring 0) (translate Sample.dictionaries (Sample.resolve "de" "en" "hund"))
       out.2
     = (inr (not_supported_response Sample.dictionaries "de" "en"), out.2).
Proof.
  destruct (contribution_to_unsupported_pair_is_not_served Sample.dictionaries
              (Sample.scoring 0) (Sample.contribution "hund" "dog" "de" "en")
              (Sample.resolve "de" "en" "hund")
              "hund" "dog" "de" "en" "" "" "id-1" "t1" "de" "en" "hund" empty_store)
    as (H1 & _ & H2); [sample_facts.. | split; [exact H1 | exact H2]].
Defined.

Lemma contributed_translation_is_served_witness :
  let out :=
    run (Sample.scoring 80)
      (contribute More.dictionaries (Sample.contribution "Cat " "gato" "en" "es")
         "id-4" "t4") empty_store in
  run (Sample.scoring 80) (translate More.dictionaries (Sample.resolve "EN" "es" " cat"))
    out.2
  = (inr (pending_response "en" "es" "cat" (VStr "gato")), out.2).
Proof.
  destruct (contributed_translation_is_served More.dictionaries (Sample.scoring 80)
              (Sample.contribution "Cat " "gato" "en" "es")
              (Sample.resolve "EN" "es" " cat")
              "Cat " "gato" "en" "es" "" "" "id-4" "t4" "EN" "es" " cat" empty_store)
    as (_ & H); [first [sample_facts | apply reaches_pending_sample].. | exact H].
Defined.

Lemma identical_contribution_accepted_twice_witness :
  let out1 :=
    run (Sample.scoring 0)
      (contribute Sample.dictionaries (Sample.contribution "cat" "chat" "en" "fr")
         "id-1" "t1") empty_store in
  let out2 :=
    run (Sample.scoring 0)
      (contribute Sample.dictionaries (Sample.contribution "cat" "chat" "en" "fr")
         "id-2" "t2") out1.2 in
  out2.1 = inr (success_response "id-2" "en-fr")
  /\ aggregate_counter out2.2 "en-fr" "total_contributions" = 2.
Proof.
  destruct (identical_contribution_accepted_twice Sample.dictionaries (Sample.scoring 0)
              (Sample.contribution "cat" "chat" "en" "fr")
              "cat" "chat" "en" "fr" "" "" "id-1" "t1" "id-2" "t2" empty_store)
    as (_ & H2 & _ & _ & H5 & _);
    [first [sample_facts | intros dictionary [= <-]; reflexivity]..
    | split; [exact H2 | exact H5]].
Defined.

Lemma aggregate_inv_empty : aggregate_inv empty_store.
Proof. intros key. unfold aggregate_counter. cbn. by rewrite lookup_empty. Qed.

Lemma aggregates_hold_under_any_schedule_witness :
  aggregate_inv
    (interleave (Sample.scoring 0) Sample.racing
       (handler Sample.dictionaries
          <$> [Contribute (Sample.contribution "cat" "chat" "en" "fr") "id-1" "t1";
               Contribute (Sample.contribution "dog" "chien" "en" "fr") "id-2" "t2"])
       empty_store).2.
Proof.
  apply (aggregates_hold_under_any_schedule Sample.dictionaries (Sample.scoring 0)).
  apply aggregate_inv_empty.
Defined.

Lemma exact_answer_is_a_table_entry_witness :
  exists (dictionary : odict string) (translation : string),
    od_get Sample.dictionaries "en-fr" = Some dictionary
    /\ od_get dictionary "hello" = Some translation
    /\ (exact_response "en" "fr" "hello" "bonjour").1 !! "translation"
       = Some (VStr translation).
Proof.
  destruct (exact_answer_is_a_table_entry Sample.dictionaries (Sample.scoring 80)
              (Sample.resolve "EN" "fr" "Hello ") "EN" "fr" "Hello "
              empty_store empty_store (exact_response "en" "fr" "hello" "bonjour"))
    as (dictionary & translation & H1 & H2 & H3 & _); [sample_facts..|].
  exists dictionary, translation. repeat split; assumption.
Defined.

Lemma fuzzy_answer_is_a_scored_entry_witness :
  exists (dictionary : odict string) (translation best_match : string) (score : Z),
    od_get Sample.dictionaries "en-fr" = Some dictionary
    /\ Sample.scoring 80 "helo" (od_keys dictionary) = Some (best_match, score)
    /\ 70 <= score
    /\ od_get dictionary best_match = Some translation.
Proof.
  destruct (fuzzy_answer_is_a_scored_entry Sample.dictionaries (Sample.scoring 80)
              (Sample.resolve "en" "fr" "helo") "en" "fr" "helo"
              empty_store empty_store
              (fuzzy_response "en" "fr" "helo" "bonjour" 80 "hello"))
    as (dictionary & translation & best_match & score & H1 & _ & H3 & H4 & H5 & _);
    [sample_facts..|].
  exists dictionary, translation, best_match, score. repeat split; assumption.
Defined.

Lemma duplicate_answer_points_to_a_translation_witness :
  exists existing : value,
    (duplicate_response (VStr "bonjour")).1 !! "existing_translation" = Some existing
    /\ truthy existing = true.
Proof.
  destruct (duplicate_answer_points_to_a_translation Sample.dictionaries (Sample.scoring 0)
              (Sample.contribution "Hello" "salut" "en" "fr")
              "Hello" "salut" "en" "fr" "" "" "id-1" "t1" empty_store empty_store
              (duplicate_response (VStr "bonjour")))
    as (_ & existing & H1 & H2 & _); [sample_facts..|].
  exists existing. split; assumption.
Defined.
